(** * mbrs: the command-line decoder and the COMET-QE metric wrapper

    A shallow embedding of [mbrs/cli/decode.py] and [mbrs/metrics/cometqe.py].

    Python values are modelled as follows.
    - [int] is [Z]; [//] is [Z.div] (both round towards minus infinity).
    - [str] is [string]; a character stands for a code point below 256.
    - a list is a [list]; a slice [l[a:b]] is [py_slice], with Python's
      treatment of negative and out-of-range bounds.
    - [None]-able values are [option]s.
    - an exception is a value of [exn]; a call that may raise returns a
      [result].
    - the main program runs in the monad [Run]: it threads the observable
      [World] (the decode calls made so far and the lines printed) and stops
      at the first exception.

    The registries of metrics and decoders and the decoders themselves live
    in modules that are not among these two files: the command line takes
    them from its environment ([Decode.Env]), and the decoding engine is
    modelled apart ([DecoderSpec]). The COMET model is third-party code and
    is a parameter of the metric. Scores are of an abstract type [F]. The
    progress bar and the timer have no effect on what is decoded and printed
    and are left out. The statistics come from the timer, which is not among
    these files either: whether they can be computed is asked of the
    environment, and of the table only the fact that it is printed is
    kept. *)

From Stdlib Require Import ZArith QArith Ascii String List Sorted Lia.
From stdpp Require Import base option list strings gmap.

Open Scope string_scope.
Open Scope list_scope.
Open Scope Z_scope.

(** ** Exceptions and fallible calls *)

Inductive exn : Type :=
  | AssertionError
  | ZeroDivisionError
  | TypeError
  | IndexError
  | ValueError
  | OSError
  | KeyError
  | RuntimeError
  | Fault (what : string).

Inductive result (A : Type) : Type :=
  | Ok (a : A)
  | Raise (e : exn).
Arguments Ok {A} a.
Arguments Raise {A} e.

#[global] Instance result_ret : MRet result := fun _ a => Ok a.
#[global] Instance result_bind : MBind result := fun _ _ f m =>
  match m with
  | Ok a => f a
  | Raise e => Raise e
  end.
#[global] Instance result_fmap : FMap result := fun _ _ f m =>
  match m with
  | Ok a => Ok (f a)
  | Raise e => Raise e
  end.

(** [mapM] over [result]: a list comprehension whose body may raise. *)
Fixpoint result_mapM {A B} (f : A → result B) (l : list A) : result (list B) :=
  match l with
  | [] => Ok []
  | x :: l' => y ← f x; ys ← result_mapM f l'; Ok (y :: ys)
  end.

(** ** Python built-ins used by the sources *)

(** [str.isspace] on one code point below 256. *)
Definition is_space (c : ascii) : bool :=
  let n := N_of_ascii c in
  (((9 <=? n) && (n <=? 13)) || ((28 <=? n) && (n <=? 32))
   || (n =? 133) || (n =? 160))%N.

Fixpoint lstrip (s : string) : string :=
  match s with
  | EmptyString => EmptyString
  | String c s' => if is_space c then lstrip s' else s
  end.

Fixpoint rstrip (s : string) : string :=
  match s with
  | EmptyString => EmptyString
  | String c s' =>
      match rstrip s' with
      | EmptyString => if is_space c then EmptyString else String c EmptyString
      | r => String c r
      end
  end.

(** [s.strip()] *)
Definition strip (s : string) : string := rstrip (lstrip s).

(** A slice bound, clamped as CPython's [PySlice_AdjustIndices] does. *)
Definition slice_index (len i : Z) : Z :=
  if i <? 0 then Z.max (i + len) 0 else Z.min i len.

(** [l[a:b]] *)
Definition py_slice {A} (l : list A) (a b : Z) : list A :=
  let len := Z.of_nat (length l) in
  let lo := slice_index len a in
  let hi := slice_index len b in
  take (Z.to_nat (hi - lo)) (drop (Z.to_nat lo) l).

(** [l[i]] *)
Definition py_getitem {A} (l : list A) (i : Z) : result A :=
  let len := Z.of_nat (length l) in
  let j := if i <? 0 then i + len else i in
  if j <? 0 then Raise IndexError
  else match l !! Z.to_nat j with
       | Some x => Ok x
       | None => Raise IndexError
       end.

(** [range(n)] *)
Definition py_range (n : Z) : list Z := Z.of_nat <$> seq 0 (Z.to_nat n).

(** [a or b] on an optional [int]: [None] and [0] are falsy. *)
Definition py_or (a : option Z) (b : Z) : Z :=
  match a with
  | None => b
  | Some v => if v =? 0 then b else v
  end.

(** [a // b] *)
Definition py_floordiv (a b : Z) : result Z :=
  if b =? 0 then Raise ZeroDivisionError else Ok (a / b).

(** ** mbrs/metrics/cometqe.py *)

Module MetricCOMETQE.

(** [@register("comet_qe")] *)
Definition registered_name : string := "comet_qe".

Record Config : Type := mkConfig {
  model : string;
  batch_size : Z;
  float16 : bool;
  cpu : bool
}.

(** [Config()] *)
Definition Config_default : Config :=
  {| model := "Unbabel/wmt22-cometkiwi-da";
     batch_size := 64;
     float16 := false;
     cpu := false |}.

(** [Config(batch_size=b, float16=f)] *)
Definition Config_kw (b : Z) (f : bool) : Config :=
  {| model := model Config_default;
     batch_size := b;
     float16 := f;
     cpu := cpu Config_default |}.

(** One entry [{"src": source, "mt": hyp}] of the data given to the model. *)
Record Sample : Type := mkSample { src : string; mt : string }.

Section Metric.
(** [F] is the type of the scores (floats); the COMET model is the
    third-party object [self.scorer], known by its [predict] method
    with arguments [data], [batch_size] and [gpus]. *)
Context {F : Type}.

Record Scorer : Type := mkScorer {
  predict : list Sample → Z → Z → result (list F)
}.

Record t : Type := mkMetric { cfg : Config; scorer : Scorer }.

Section Init.
(** [load_from_checkpoint(download_model(name))] followed by [eval()]
    and the freezing of the parameters; [.cuda()], [.half()] and
    [torch.cuda.is_available()]. *)
Variable load_model : string → result Scorer.
Variable to_cuda to_half : Scorer → Scorer.
Variable cuda_is_available : bool.

Definition init (c : Config) : result t :=
  sc ← load_model (model c);
  let sc :=
    if negb (cpu c) && cuda_is_available then
      let sc := to_cuda sc in
      if float16 c then to_half sc else sc
    else sc in
  Ok (mkMetric c sc).
End Init.

(** [np.array(a).reshape(n)] on a flat list of scores *)
Definition reshape (a : list F) (n : nat) : result (list F) :=
  if decide (length a = n) then Ok a else Raise ValueError.

(** [a.item()] *)
Definition item (a : list F) : result F :=
  match a with
  | [x] => Ok x
  | _ => Raise ValueError
  end.

Definition scores (self : t) (hypotheses : list string) (source : string)
  : result (list F) :=
  let data := (fun hyp => mkSample source hyp) <$> hypotheses in
  model_output ← predict (scorer self) data (batch_size (cfg self)) 1;
  reshape model_output (length hypotheses).

Definition score (self : t) (hypothesis : string) (source : string)
  : result F :=
  a ← scores self [hypothesis] source;
  item a.

(** The scalar interface as the specification words it: the single
    element of the batched call on the singleton list. *)
Definition score_of_singleton_batch (self : t) (hypothesis source : string)
  : result F :=
  match scores self [hypothesis] source with
  | Ok a =>
      match a !! 0%nat with
      | Some x => Ok x
      | None => Raise IndexError
      end
  | Raise e => Raise e
  end.
End Metric.
Arguments Scorer : clear implicits.
Arguments t : clear implicits.

End MetricCOMETQE.

(** ** The collaborators of the command line that live in other modules *)

(** [decoder.decode(...)] returns an object whose [sentence] field the
    command line prints. *)
Record Output {F : Type} : Type := mkOutput {
  idx : list nat;
  sentence : list string;
  score : list F
}.
Arguments Output : clear implicits.

(** A decoder object is of one of the two classes the command line tells
    apart with [isinstance]; each comes with its [decode] method. *)
Inductive Decoder {F : Type} : Type :=
  | DecoderReferenceless
      (decode : list string → string → Z → result (Output F))
  | DecoderReferenceBased
      (decode : list string → list string → option string → Z
                → result (Output F)).
Arguments Decoder : clear implicits.

(** A registered metric class: [metric_type.Config(...)] with the keyword
    arguments [batch_size] and [float16] or with none, and
    [metric_type(cfg)]. *)
Record MetricType {Metric : Type} : Type := mkMetricType {
  MetricConfig : Type;
  metric_Config : option (Z * bool) → result MetricConfig;
  metric_new : MetricConfig → result Metric
}.
Arguments MetricType : clear implicits.

(** A registered decoder class: [decoder_type.Config()] and
    [decoder_type(cfg, metric)]. *)
Record DecoderType {F Metric : Type} : Type := mkDecoderType {
  DecoderConfig : Type;
  decoder_Config : result DecoderConfig;
  decoder_new : DecoderConfig → Metric → result (Decoder F)
}.
Arguments DecoderType : clear implicits.

(** ** mbrs/cli/decode.py *)

Module Args.
(** The [Namespace] that [parse_args] returns. [output] is the stream
    the selected sentences are printed to; it is part of the [World]. *)
Record Namespace : Type := mkNamespace {
  hypotheses : string;
  source : option string;
  references : option string;
  num_candidates : Z;
  num_references : option Z;
  decoder : string;
  metric : string;
  nbest : Z;
  quiet : bool;
  report : string;
  width : Z;
  batch_size : Z;
  fp16 : bool
}.
End Args.

(** One invocation of [decoder.decode], with its arguments. *)
Inductive Call : Type :=
  | CallReferenceless (hyps : list string) (src : string) (nbest : Z)
  | CallReferenceBased (hyps refs : list string) (src : option string)
      (nbest : Z).

(** What a run does that can be observed from outside: the [decode] calls,
    the lines written with [print(sent, file=args.output)], and the
    statistics tables written with [print(table)] (each known by the number
    of sentences it is computed for; the timings themselves are not
    modelled). The two kinds of lines are kept apart: when [args.output] is
    the standard output, the table comes on the same stream, after the
    sentences. *)
Record World : Type := mkWorld {
  calls : list Call;
  output : list string;
  reports : list Z
}.

Definition World_empty : World := mkWorld [] [] [].

Definition Run (A : Type) : Type := World → World * result A.

#[global] Instance Run_ret : MRet Run := fun _ a w => (w, Ok a).
#[global] Instance Run_bind : MBind Run := fun _ _ f m w =>
  match m w with
  | (w', Ok a) => f a w'
  | (w', Raise e) => (w', Raise e)
  end.

Definition lift {A} (r : result A) : Run A := fun w => (w, r).

Definition raise {A} (e : exn) : Run A := lift (Raise e).

(** [print(s, file=args.output)] *)
Definition print_output (s : string) : Run unit := fun w =>
  (mkWorld (calls w) (output w ++ [s]) (reports w), Ok tt).

(** [print(table)] *)
Definition print_report (num_sents : Z) : Run unit := fun w =>
  (mkWorld (calls w) (output w) (reports w ++ [num_sents]), Ok tt).

(** A call of [decoder.decode]: it is recorded, then it returns or raises. *)
Definition invoke {A} (c : Call) (r : result A) : Run A := fun w =>
  (mkWorld (calls w ++ [c]) (output w) (reports w), r).

(** [for x in l: body] *)
Fixpoint for_each {A} (l : list A) (body : A → Run unit) : Run unit :=
  match l with
  | [] => mret tt
  | x :: l' => body x ;; for_each l' body
  end.

(** The exit status of the process: an uncaught exception ends the
    interpreter with status 1. *)
Definition exit_status {A} (r : result A) : Z :=
  match r with
  | Ok _ => 0
  | Raise _ => 1
  end.

Module Decode.
Import Args.

Section Main.
Context {F Metric : Type}.

(** The environment of a run: the files (a path is mapped to what
    [readlines] returns for it), the two registries, and the timer:
    [statistics calls num_sents] stands for
    [timer.aggregate().result(num_sents)] and its rendering as a table,
    after the calls [calls] of [decode] have been timed; it returns or it
    raises. *)
Record Env : Type := mkEnv {
  files : gmap string (list string);
  get_metric : string → result (MetricType Metric);
  get_decoder : string → result (DecoderType F Metric);
  statistics : list Call → Z → result unit
}.

Variable env : Env.

(** [with open(path, mode="r") as f: f.readlines()] *)
Definition readlines (path : string) : result (list string) :=
  match files env !! path with
  | Some lines => Ok lines
  | None => Raise OSError
  end.

(** The configuration arguments chosen by the test on the metric name. *)
Definition metric_cfg_args (args : Namespace) : option (Z * bool) :=
  if String.eqb (metric args) "comet" || String.eqb (metric args) "cometqe"
  then Some (batch_size args, fp16 args)
  else None.

Definition num_refs (args : Namespace) : Z :=
  py_or (num_references args) (num_candidates args).

(** The body of the loop for a reference-free decoder: [sources[i]] is
    evaluated first, then the slice of the hypotheses, then [decode] is
    called and each sentence of its output is printed. *)
Definition body_referenceless
    (decode : list string → string → Z → result (Output F))
    (args : Namespace) (sources : option (list string))
    (hypotheses : list string) (i : Z) : Run unit :=
  let num_cands := num_candidates args in
  src ← match sources with
        | Some ss => s ← lift (py_getitem ss i); mret (strip s)
        | None => raise TypeError
        end;
  let hyps :=
    strip <$> py_slice hypotheses (i * num_cands) ((i + 1) * num_cands) in
  output ← invoke (CallReferenceless hyps src (nbest args))
                  (decode hyps src (nbest args));
  for_each (sentence output) print_output.

(** The body of the loop for a reference-based decoder. *)
Definition body_reference_based
    (decode : list string → list string → option string → Z
              → result (Output F))
    (args : Namespace) (sources : option (list string))
    (hypotheses references : list string) (i : Z) : Run unit :=
  let num_cands := num_candidates args in
  let num_refs := num_refs args in
  src ← match sources with
        | Some ss => s ← lift (py_getitem ss i); mret (Some (strip s))
        | None => mret None
        end;
  let hyps :=
    strip <$> py_slice hypotheses (i * num_cands) ((i + 1) * num_cands) in
  let refs :=
    strip <$> py_slice references (i * num_refs) ((i + 1) * num_refs) in
  output ← invoke (CallReferenceBased hyps refs src (nbest args))
                  (decode hyps refs src (nbest args));
  for_each (sentence output) print_output.

(** The two loops over [range(num_sents)], one per class of decoder. *)
Definition decode_all (args : Namespace) (decoder : Decoder F)
    (sources : option (list string)) (hypotheses references : list string)
    (num_sents : Z) : Run unit :=
  match decoder with
  | DecoderReferenceless decode =>
      for_each (py_range num_sents)
        (body_referenceless decode args sources hypotheses)
  | DecoderReferenceBased decode =>
      for_each (py_range num_sents)
        (body_reference_based decode args sources hypotheses references)
  end.

(** What [main] has at hand when it enters the loops. *)
Record Setup : Type := mkSetup {
  the_sources : option (list string);
  the_hypotheses : list string;
  the_references : list string;
  the_decoder : Decoder F;
  the_num_sents : Z
}.

(** [main], from its first line to the assertion: the files are read,
    the metric and the decoder are built, the number of sentences is
    computed and checked. Nothing is printed and [decode] is not called
    there. *)
Definition setup (args : Namespace) : result Setup :=
  sources ← match source args with
            | Some path => lines ← readlines path; Ok (Some lines)
            | None => Ok None
            end;
  hypotheses ← readlines (hypotheses args);
  references ← match references args with
               | Some path => readlines path
               | None => Ok hypotheses
               end;
  metric_type ← get_metric env (metric args);
  metric_cfg ← metric_Config metric_type (metric_cfg_args args);
  metric ← metric_new metric_type metric_cfg;
  decoder_type ← get_decoder env (decoder args);
  decoder_cfg ← decoder_Config decoder_type;
  decoder ← decoder_new decoder_type decoder_cfg metric;
  let num_cands := num_candidates args in
  num_sents ← py_floordiv (Z.of_nat (length hypotheses))
                          (num_candidates args);
  if num_sents * num_cands =? Z.of_nat (length hypotheses)
  then Ok (mkSetup sources hypotheses references decoder num_sents)
  else Raise AssertionError.

(** The report: the statistics of the calls timed so far are computed and
    rendered, then the table is printed. *)
Definition report (num_sents : Z) : Run unit := fun w =>
  (lift (statistics env (calls w) num_sents);; print_report num_sents) w.

(** [main]: the set-up, the loop of the decoder's class, and the report
    unless [--quiet] is given. *)
Definition main (args : Namespace) : Run unit :=
  s ← lift (setup args);
  decode_all args (the_decoder s) (the_sources s) (the_hypotheses s)
    (the_references s) (the_num_sents s);;
  if negb (quiet args) then report (the_num_sents s) else mret tt.
End Main.
Arguments Env : clear implicits.

(** [cli_main], started in a world where nothing has happened yet. *)
Definition cli_main {F Metric} (env : Env F Metric) (args : Namespace)
  : World * result unit :=
  main env args World_empty.
End Decode.

(** ** The decoding engine (mbrs.decoders) *)

Module DecoderSpec.

(** Modelled from the spec: the metric capability consumed by the
    decoders (the classes of [mbrs.metrics] are bound to a decoder at
    construction); the package [mbrs.decoders] and the base classes of
    [mbrs.metrics] are missing. A capability is reference-based (it scores
    a hypothesis against a reference, with the optional source) or
    reference-free (it scores a hypothesis against the source). *)
Inductive Capability {F : Type} : Type :=
  | ReferenceBased (score : string → string → option string → result F)
  | ReferenceFree (score : string → string → result F).
Arguments Capability : clear implicits.

Section Engine.
Context {F : Type}.
(** The order on scores and the arithmetic mean of a row of scores. *)
Variable ltb : F → F → bool.
Variable mean : list F → F.

(** Modelled from the spec: the Selector/Ranker of section 4.3, which
    is missing. Hypotheses are ordered by score, descending, ties broken
    by ascending original index. An entry is put in front of the first
    entry whose score is not greater than its own. *)
Fixpoint insert_ranked (x : nat * F) (l : list (nat * F))
  : list (nat * F) :=
  match l with
  | [] => [x]
  | y :: l' =>
      if ltb (snd x) (snd y) then y :: insert_ranked x l'
      else x :: y :: l'
  end.

Definition rank (scores : list F) : list (nat * F) :=
  foldr insert_ranked [] (imap pair scores).

(** Modelled from the spec: the ranked n-best result of sections 3 and
    4.3 and the texts returned for printing (section 6); [n > H] yields
    all [H] hypotheses. *)
Definition select (hyps : list string) (scores : list F) (n : Z)
  : Output F :=
  let top := take (Z.to_nat n) (rank scores) in
  {| idx := fst <$> top;
     sentence := (fun p => default "" (hyps !! fst p)) <$> top;
     score := snd <$> top |}.

(** Modelled from the spec: the input validation faults of section 7,
    raised before any metric invocation. *)
Definition validate (hyps : list string) (n : Z) : result unit :=
  if n <? 1 then Raise (Fault "n < 1")
  else match hyps with
       | [] => Raise (Fault "empty hypothesis pool")
       | _ => Ok tt
       end.

(** Modelled from the spec: the reference-based [decode] of section
    4.4, which is missing: the utility matrix of section 4.1, one score
    per (hypothesis, reference) pair, reduced row by row with the mean
    (section 4.2), then ranked. *)
Definition decode_reference_based
    (score : string → string → option string → result F)
    (hyps refs : list string) (src : option string) (n : Z)
  : result (Output F) :=
  validate hyps n;;
  match refs with
  | [] => Raise (Fault "empty reference set")
  | _ =>
      matrix ← result_mapM
                 (fun h => result_mapM (fun r => score h r src) refs) hyps;
      Ok (select hyps (mean <$> matrix) n)
  end.

(** Modelled from the spec: the reference-free [decode] of section 4.4,
    which is missing: one score per hypothesis against the source; the
    aggregation is the identity. *)
Definition decode_referenceless
    (score : string → string → result F)
    (hyps : list string) (src : string) (n : Z)
  : result (Output F) :=
  validate hyps n;;
  scores ← result_mapM (fun h => score h src) hyps;
  Ok (select hyps scores n).

(** Modelled from the spec: the construction of a decoder (section
    4.4), which is missing: the mode follows the metric capability; the
    configuration has no options. *)
Definition decoder_type : DecoderType F (Capability F) :=
  {| DecoderConfig := unit;
     decoder_Config := Ok tt;
     decoder_new := fun _ metric =>
       match metric with
       | ReferenceBased score =>
           Ok (DecoderReferenceBased (decode_reference_based score))
       | ReferenceFree score =>
           Ok (DecoderReferenceless (decode_referenceless score))
       end |}.
End Engine.
End DecoderSpec.

(** ** The COMET-QE class as the command line sees it *)

Section Registered.
Context {F : Type}.
Variable load_model : string → result (MetricCOMETQE.Scorer F).
Variable to_cuda to_half : MetricCOMETQE.Scorer F → MetricCOMETQE.Scorer F.
Variable cuda_is_available : bool.

(** The class [MetricCOMETQE]: its [Config] data class, called with the
    two keyword arguments or with none, and its constructor. *)
Definition MetricCOMETQE_type : MetricType (MetricCOMETQE.t F) :=
  {| MetricConfig := MetricCOMETQE.Config;
     metric_Config := fun kw =>
       match kw with
       | Some (b, f) => Ok (MetricCOMETQE.Config_kw b f)
       | None => Ok MetricCOMETQE.Config_default
       end;
     metric_new :=
       MetricCOMETQE.init load_model to_cuda to_half cuda_is_available |}.
End Registered.

(** ** A description of what the loops do *)

(** The calls made, the lines printed and the outcome of a piece of the
    program that prints no report. *)
Record Effect {A : Type} : Type := mkEffect {
  eff_calls : list Call;
  eff_lines : list string;
  eff_result : result A
}.
Arguments Effect : clear implicits.
Arguments mkEffect {A} eff_calls eff_lines eff_result.

Definition performs {A} (m : Run A) (e : Effect A) : Prop :=
  ∀ w, m w = (mkWorld (calls w ++ eff_calls e) (output w ++ eff_lines e)
                      (reports w),
              eff_result e).

(** The stripped lines of block [i] of a file cut in blocks of [size]. *)
Definition block (lines : list string) (size i : Z) : list string :=
  strip <$> py_slice lines (i * size) ((i + 1) * size).

Definition call_hyps (c : Call) : list string :=
  match c with
  | CallReferenceless hyps _ _ => hyps
  | CallReferenceBased hyps _ _ _ => hyps
  end.

Definition call_nbest (c : Call) : Z :=
  match c with
  | CallReferenceless _ _ n => n
  | CallReferenceBased _ _ _ n => n
  end.

Section Steps.
Context {F : Type}.
Variable args : Args.Namespace.
Variable d : Decoder F.
Variable sources : option (list string).
Variable hypotheses references : list string.

(** The call of [decode] for sentence [i], when the source can be
    fetched. *)
Definition call_at (i : Z) : result Call :=
  let nc := Args.num_candidates args in
  match d with
  | DecoderReferenceless _ =>
      match sources with
      | Some ss =>
          s ← py_getitem ss i;
          Ok (CallReferenceless (block hypotheses nc i) (strip s)
                (Args.nbest args))
      | None => Raise TypeError
      end
  | DecoderReferenceBased _ =>
      src ← match sources with
            | Some ss => s ← py_getitem ss i; Ok (Some (strip s))
            | None => Ok None
            end;
      Ok (CallReferenceBased (block hypotheses nc i)
            (block references (Decode.num_refs args) i) src
            (Args.nbest args))
  end.

(** What the decoder answers to a call. *)
Definition answer (c : Call) : result (Output F) :=
  match d, c with
  | DecoderReferenceless decode, CallReferenceless hyps src n =>
      decode hyps src n
  | DecoderReferenceBased decode, CallReferenceBased hyps refs src n =>
      decode hyps refs src n
  | _, _ => Raise TypeError
  end.

(** One turn of the loop. *)
Definition step (i : Z) : Effect unit :=
  match call_at i with
  | Raise e => mkEffect [] [] (Raise e)
  | Ok c =>
      match answer c with
      | Ok o => mkEffect [c] (sentence o) (Ok tt)
      | Raise e => mkEffect [c] [] (Raise e)
      end
  end.

(** The turns of the loop, up to the first exception. *)
Fixpoint steps (l : list Z) : Effect unit :=
  match l with
  | [] => mkEffect [] [] (Ok tt)
  | i :: l' =>
      let e := step i in
      match eff_result e with
      | Ok _ =>
          let e' := steps l' in
          mkEffect (eff_calls e ++ eff_calls e') (eff_lines e ++ eff_lines e')
            (eff_result e')
      | Raise x => e
      end
  end.

(** The lines printed for sentence [i] when its turn succeeds. *)
Definition lines_at (i : Z) : list string :=
  match call_at i with
  | Ok c => match answer c with Ok o => sentence o | Raise _ => [] end
  | Raise _ => []
  end.
End Steps.

(** Modelled from the spec: the utilities of the hypotheses of a call
    (sections 4.1 and 4.2), for a metric capability, the decoders being
    missing. Reference-based: each hypothesis is scored against every
    reference and the row is reduced with the mean. Reference-free: each
    hypothesis is scored against the source. *)
Definition utilities {F} (mean : list F → F) (m : DecoderSpec.Capability F)
    (c : Call) : result (list F) :=
  match m, c with
  | DecoderSpec.ReferenceBased score, CallReferenceBased hyps refs src _ =>
      fmap (M:=result) (fmap mean)
        (result_mapM (fun h => result_mapM (fun r => score h r src) refs) hyps)
  | DecoderSpec.ReferenceFree score, CallReferenceless hyps src _ =>
      result_mapM (fun h => score h src) hyps
  | _, _ => Raise TypeError
  end.

(** Modelled from the spec: the order of the ranked result (section 3),
    on pairs of an index and a score: the score of the first is not less
    than the score of the second, and on equal scores the first has the
    smaller index. *)
Definition ranked_before {F} (ltb : F → F → bool) (a b : nat * F) : Prop :=
  ltb a.2 b.2 = false ∧ (ltb b.2 a.2 = false → (a.1 < b.1)%nat).

(** A decoder built by the engine. *)
Definition engine_decoder {F} (ltb : F → F → bool) (mean : list F → F)
    (d : Decoder F) : Prop :=
  (∃ score,
     d = DecoderReferenceBased
           (DecoderSpec.decode_reference_based ltb mean score))
  ∨ (∃ score,
       d = DecoderReferenceless (DecoderSpec.decode_referenceless ltb score)).

(** The turn of sentence [i] goes through: the source is fetched and the
    decoder returns. *)
Definition turn_ok {F} (args : Args.Namespace) (d : Decoder F)
    (sources : option (list string)) (hypotheses references : list string)
    (i : Z) : Prop :=
  ∃ c o, call_at args d sources hypotheses references i = Ok c
         ∧ answer d c = Ok o.

(** The source that a call of [decode] carries, if any. *)
Definition call_src (c : Call) : option string :=
  match c with
  | CallReferenceless _ src _ => Some src
  | CallReferenceBased _ _ src _ => src
  end.

(** The first and the last character of a string. *)
Definition first_char (s : string) : option ascii :=
  match s with
  | EmptyString => None
  | String c _ => Some c
  end.

Fixpoint last_char (s : string) : option ascii :=
  match s with
  | EmptyString => None
  | String c EmptyString => Some c
  | String _ s' => last_char s'
  end.

(** No white space at either end. *)
Definition trimmed (s : string) : Prop :=
  (∀ c, first_char s = Some c → is_space c = false)
  ∧ (∀ c, last_char s = Some c → is_space c = false).

(** The references that a call of [decode] carries. *)
Definition call_refs (c : Call) : list string :=
  match c with
  | CallReferenceless _ _ _ => []
  | CallReferenceBased _ refs _ _ => refs
  end.

(** The three files of a run can be read, with these lines. *)
Definition inputs_readable {F Metric} (env : Decode.Env F Metric)
    (args : Args.Namespace) (sources : option (list string))
    (hypotheses references : list string) : Prop :=
  match Args.source args with
  | Some path =>
      ∃ ss, Decode.files env !! path = Some ss ∧ sources = Some ss
  | None => sources = None
  end
  ∧ Decode.files env !! Args.hypotheses args = Some hypotheses
  ∧ match Args.references args with
    | Some path => Decode.files env !! path = Some references
    | None => references = hypotheses
    end.

(** The registries know the metric and the decoder of a run, and the
    constructors return: the decoder built is [d]. *)
Definition decoder_built {F Metric} (env : Decode.Env F Metric)
    (args : Args.Namespace) (d : Decoder F) : Prop :=
  ∃ mt mc m dt dc,
    Decode.get_metric env (Args.metric args) = Ok mt
    ∧ metric_Config mt (Decode.metric_cfg_args args) = Ok mc
    ∧ metric_new mt mc = Ok m
    ∧ Decode.get_decoder env (Args.decoder args) = Ok dt
    ∧ decoder_Config dt = Ok dc
    ∧ decoder_new dt dc m = Ok d.

(** ** Sample collaborators, to run the program on *)

Module Sample.
Definition Qltb (a b : Q) : bool := negb (Qle_bool b a).

Definition Qmean (l : list Q) : Q :=
  (foldr Qplus 0 l / inject_Z (Z.of_nat (length l)))%Q.

(** 1.0 if equal else 0.0 *)
Definition exact_match (h r : string) : Q :=
  if String.eqb h r then 1%Q else 0%Q.

Definition metric_type (m : DecoderSpec.Capability Q)
  : MetricType (DecoderSpec.Capability Q) :=
  {| MetricConfig := unit;
     metric_Config := fun _ => Ok tt;
     metric_new := fun _ => Ok m |}.

Definition get_metric (name : string)
  : result (MetricType (DecoderSpec.Capability Q)) :=
  if String.eqb name "exact" then
    Ok (metric_type
          (DecoderSpec.ReferenceBased (fun h r _ => Ok (exact_match h r))))
  else if String.eqb name "exact_qe" then
    Ok (metric_type
          (DecoderSpec.ReferenceFree (fun h s => Ok (exact_match h s))))
  else Raise KeyError.

Definition get_decoder (name : string)
  : result (DecoderType Q (DecoderSpec.Capability Q)) :=
  if String.eqb name "mbr" then Ok (DecoderSpec.decoder_type Qltb Qmean)
  else Raise KeyError.

(** A timer that has statistics as soon as one call was timed, and raises
    when none was. *)
Definition statistics (calls : list Call) (num_sents : Z) : result unit :=
  match calls with
  | [] => Raise RuntimeError
  | _ => Ok tt
  end.

Definition env (files : gmap string (list string))
  : Decode.Env Q (DecoderSpec.Capability Q) :=
  Decode.mkEnv files get_metric get_decoder statistics.

(** The defaults of [parse_args] for the options that are not given
    here. *)
Definition args (hyp : string) (src refs : option string) (nc : Z)
    (nr : option Z) (metric : string) (nbest : Z) : Args.Namespace :=
  {| Args.hypotheses := hyp;
     Args.source := src;
     Args.references := refs;
     Args.num_candidates := nc;
     Args.num_references := nr;
     Args.decoder := "mbr";
     Args.metric := metric;
     Args.nbest := nbest;
     Args.quiet := false;
     Args.report := "rounded_outline";
     Args.width := 1;
     Args.batch_size := 64;
     Args.fp16 := false |}.

Definition nl : string := String (ascii_of_nat 10) EmptyString.

Definition seven_lines : list string :=
  (fun s => s ++ nl)%string <$> ["a"; "b"; "c"; "d"; "e"; "f"; "g"].

Definition six_lines : list string :=
  (fun s => s ++ nl)%string <$> ["a b c"; "a b d"; "a b c"; "x"; "y"; "y"].

Definition three_lines : list string :=
  (fun s => s ++ nl)%string <$> ["a b c"; "a b d"; "a b c"].
End Sample.

(** The sample metrics, decoders and files, by name. *)
Module SampleRun.
Definition rb_metric : DecoderSpec.Capability Q :=
  DecoderSpec.ReferenceBased (fun h r _ => Ok (Sample.exact_match h r)).

Definition qe_metric : DecoderSpec.Capability Q :=
  DecoderSpec.ReferenceFree (fun h s => Ok (Sample.exact_match h s)).

Definition rb_decoder : Decoder Q :=
  DecoderReferenceBased
    (DecoderSpec.decode_reference_based Sample.Qltb Sample.Qmean
       (fun h r _ => Ok (Sample.exact_match h r))).

Definition qe_decoder : Decoder Q :=
  DecoderReferenceless
    (DecoderSpec.decode_referenceless Sample.Qltb
       (fun h s => Ok (Sample.exact_match h s))).

Definition two_lines : list string :=
  (fun s => s ++ Sample.nl)%string <$> ["a b c"; "y"].

Definition one_line : list string :=
  (fun s => s ++ Sample.nl)%string <$> ["a b c"].

(** The same arguments, with [--quiet]. *)
Definition quiet (args : Args.Namespace) : Args.Namespace :=
  {| Args.hypotheses := Args.hypotheses args;
     Args.source := Args.source args;
     Args.references := Args.references args;
     Args.num_candidates := Args.num_candidates args;
     Args.num_references := Args.num_references args;
     Args.decoder := Args.decoder args;
     Args.metric := Args.metric args;
     Args.nbest := Args.nbest args;
     Args.quiet := true;
     Args.report := Args.report args;
     Args.width := Args.width args;
     Args.batch_size := Args.batch_size args;
     Args.fp16 := Args.fp16 args |}.
End SampleRun.

(** * Properties *)

(** ** The monad and the loops *)

Lemma bind_Ok {A B} (a : A) (k : A → result B) : (Ok a ≫= k) = k a.
Proof. reflexivity. Qed.

Lemma bind_Raise {A B} (e : exn) (k : A → result B) :
  (Raise e ≫= k) = Raise e.
Proof. reflexivity. Qed.

Lemma Run_bind_eq {A B} (m : Run A) (k : A → Run B) (w : World) :
  (m ≫= k) w =
  match m w with
  | (w', Ok a) => k a w'
  | (w', Raise e) => (w', Raise e)
  end.
Proof. reflexivity. Qed.

(** Unfolds the binds of [Run] whose first computation is known. *)
Ltac run_unfold :=
  repeat (rewrite Run_bind_eq;
          cbn [lift raise invoke mret Run_ret fst snd
               calls output reports]);
  cbn [lift raise invoke mret Run_ret fst snd calls output reports].

Lemma World_eta (w : World) : mkWorld (calls w) (output w) (reports w) = w.
Proof. by destruct w. Qed.

Lemma for_each_print_output (l : list string) (w : World) :
  for_each l print_output w
  = (mkWorld (calls w) (output w ++ l) (reports w), Ok tt).
Proof.
  revert w. induction l as [|s l IH]; intros w.
  - cbn. by rewrite app_nil_r, World_eta.
  - cbn [for_each]. rewrite Run_bind_eq. cbn [print_output].
    rewrite IH. cbn. by rewrite <- app_assoc.
Qed.

(** Closes a goal on the world reached by a turn of a loop. *)
Ltac run_done :=
  run_unfold; cbn;
  rewrite ?for_each_print_output, ?app_nil_r, ?World_eta; cbn;
  rewrite ?app_nil_r, ?World_eta; done.

Section Loops.
Context {F : Type}.
Variable args : Args.Namespace.
Variable sources : option (list string).
Variable hypotheses references : list string.

Lemma body_referenceless_performs decode i :
  performs (Decode.body_referenceless decode args sources hypotheses i)
    (step args (DecoderReferenceless (F:=F) decode) sources hypotheses
       references i).
Proof.
  intros w. unfold Decode.body_referenceless, step, call_at.
  destruct sources as [ss|]; run_unfold; [|run_done].
  destruct (py_getitem ss i) as [s|e]; run_unfold; [|run_done].
  unfold block. cbn. destruct (decode _ _ _) as [o|e]; run_done.
Qed.

Lemma body_reference_based_performs decode i :
  performs
    (Decode.body_reference_based decode args sources hypotheses references i)
    (step args (DecoderReferenceBased (F:=F) decode) sources hypotheses
       references i).
Proof.
  intros w. unfold Decode.body_reference_based, step, call_at.
  destruct sources as [ss|]; run_unfold.
  - destruct (py_getitem ss i) as [s|e]; run_unfold; [|run_done].
    unfold block. cbn. destruct (decode _ _ _ _) as [o|e]; run_done.
  - unfold block. cbn. destruct (decode _ _ _ _) as [o|e]; run_done.
Qed.

Lemma for_each_performs (d : Decoder F) (body : Z → Run unit) (l : list Z) :
  (∀ i, performs (body i)
          (step args d sources hypotheses references i)) →
  performs (for_each l body) (steps args d sources hypotheses references l).
Proof.
  intros Hbody. induction l as [|i l IH]; intros w.
  - cbn. by rewrite !app_nil_r, World_eta.
  - cbn [for_each steps]. rewrite Run_bind_eq, Hbody.
    destruct (eff_result (step _ _ _ _ _ i)) as [[]|e] eqn:E.
    + rewrite IH. cbn. by rewrite !app_assoc.
    + by rewrite E.
Qed.

Lemma decode_all_performs (d : Decoder F) (n : Z) :
  performs (Decode.decode_all args d sources hypotheses references n)
    (steps args d sources hypotheses references (py_range n)).
Proof.
  destruct d as [decode|decode]; cbn [Decode.decode_all];
    apply for_each_performs; intros i.
  - apply body_referenceless_performs.
  - apply body_reference_based_performs.
Qed.
End Loops.

(** ** Slices and ranges *)

Lemma py_slice_nonneg {A} (l : list A) (a b : Z) :
  0 ≤ a → 0 ≤ b →
  py_slice l a b = take (Z.to_nat (b - a)) (drop (Z.to_nat a) l).
Proof.
  intros Ha Hb. unfold py_slice, slice_index.
  destruct (Z.ltb_spec a 0) as [?|_]; [lia|].
  destruct (Z.ltb_spec b 0) as [?|_]; [lia|].
  set (len := Z.of_nat (length l)).
  destruct (decide (a ≤ len)) as [Hal|Hal].
  - rewrite (Z.min_l a len) by lia.
    destruct (decide (b ≤ len)) as [Hbl|Hbl].
    + by rewrite (Z.min_l b len) by lia.
    + rewrite (Z.min_r b len) by lia.
      rewrite !take_ge; [done| |]; rewrite length_drop; subst len; lia.
  - rewrite (Z.min_r a len) by lia.
    rewrite !drop_ge by (subst len; lia). by rewrite !take_nil.
Qed.

Lemma block_nonneg (lines : list string) (size i : Z) :
  0 ≤ i → 0 ≤ size →
  block lines size i
  = strip <$> take (Z.to_nat size) (drop (Z.to_nat i * Z.to_nat size) lines).
Proof.
  intros Hi Hs. unfold block. rewrite py_slice_nonneg by nia.
  do 3 f_equal; nia.
Qed.

Lemma py_range_length (n : Z) : length (py_range n) = Z.to_nat n.
Proof. unfold py_range. by rewrite length_fmap, length_seq. Qed.

Lemma py_range_lookup (n : Z) (k : nat) (i : Z) :
  py_range n !! k = Some i ↔ i = Z.of_nat k ∧ Z.of_nat k < n.
Proof.
  unfold py_range. rewrite list_lookup_fmap.
  destruct (decide (k < Z.to_nat n)%nat) as [Hk|Hk].
  - rewrite lookup_seq_lt by done. cbn. split.
    + intros [= <-]. split; lia.
    + intros [-> _]. done.
  - rewrite lookup_seq_ge by lia. cbn. split; [done|]. lia.
Qed.

(** ** The turns of the loop *)

Section StepsFacts.
Context {F : Type}.
Variable args : Args.Namespace.
Variable d : Decoder F.
Variable sources : option (list string).
Variable hypotheses references : list string.

Local Abbreviation the_call := (call_at args d sources hypotheses references).
Local Abbreviation the_step := (step args d sources hypotheses references).
Local Abbreviation the_steps := (steps args d sources hypotheses references).
Local Abbreviation the_lines := (lines_at args d sources hypotheses references).

Lemma step_cases (i : Z) :
  (∃ e, the_call i = Raise e ∧ the_step i = mkEffect [] [] (Raise e))
  ∨ (∃ c e, the_call i = Ok c ∧ answer d c = Raise e
            ∧ the_step i = mkEffect [c] [] (Raise e))
  ∨ (∃ c o, the_call i = Ok c ∧ answer d c = Ok o
            ∧ the_step i = mkEffect [c] (sentence o) (Ok tt)).
Proof.
  unfold step. destruct (the_call i) as [c|e].
  - destruct (answer d c) as [o|e] eqn:Ha.
    + right; right. by exists c, o.
    + right; left. by exists c, e.
  - left. by exists e.
Qed.

Lemma steps_calls_lookup (l : list Z) (k : nat) (c : Call) :
  eff_calls (the_steps l) !! k = Some c →
  ∃ i, l !! k = Some i ∧ the_call i = Ok c.
Proof.
  revert k. induction l as [|i l IH]; intros k; cbn [steps].
  - done.
  - destruct (step_cases i) as [(e & Hc & ->)|[(c0 & e & Hc & _ & ->)
      |(c0 & o & Hc & _ & ->)]]; cbn.
    + done.
    + destruct k; cbn; [|done]. intros [= <-]. eauto.
    + destruct k; cbn.
      * intros [= <-]. eauto.
      * apply IH.
Qed.

Lemma steps_calls_length (l : list Z) :
  (length (eff_calls (the_steps l)) ≤ length l)%nat.
Proof.
  induction l as [|i l IH]; cbn [steps]; [done|].
  destruct (step_cases i) as [(e & Hc & ->)|[(c0 & e & Hc & _ & ->)
    |(c0 & o & Hc & _ & ->)]]; cbn; lia.
Qed.

Lemma steps_Ok (l : list Z) :
  eff_result (the_steps l) = Ok tt →
  length (eff_calls (the_steps l)) = length l
  ∧ eff_lines (the_steps l) = concat (the_lines <$> l)
  ∧ ∀ k i, l !! k = Some i →
      ∃ c o, eff_calls (the_steps l) !! k = Some c
             ∧ the_call i = Ok c ∧ answer d c = Ok o.
Proof.
  induction l as [|i l IH]; cbn [steps]; [done|].
  destruct (step_cases i) as [(e & Hc & ->)|[(c0 & e & Hc & _ & ->)
    |(c0 & o & Hc & Ha & ->)]]; cbn; [done..|].
  intros Hr. destruct (IH Hr) as (Hlen & Hlines & Hall).
  split_and!.
  - by rewrite Hlen.
  - rewrite Hlines. unfold lines_at at 2. by rewrite Hc, Ha.
  - intros [|k] j; cbn.
    + intros [= <-]. eauto.
    + apply Hall.
Qed.

Lemma steps_raise_first (i : Z) (l : list Z) (e : exn) :
  the_call i = Raise e → the_steps (i :: l) = mkEffect [] [] (Raise e).
Proof.
  intros Hc. cbn [steps]. unfold step. by rewrite Hc.
Qed.
End StepsFacts.

(** ** The main program *)

Section MainFacts.
Context {F Metric : Type}.
Variable env : Decode.Env F Metric.
Variable args : Args.Namespace.

Lemma readlines_Ok (path : string) (lines : list string) :
  Decode.readlines env path = Ok lines ↔
  Decode.files env !! path = Some lines.
Proof.
  unfold Decode.readlines.
  destruct (Decode.files env !! path); split; congruence.
Qed.

(** What is known when the set-up succeeds. *)
Lemma setup_Ok (s : Decode.Setup) :
  Decode.setup env args = Ok s →
  let len := Z.of_nat (length (Decode.the_hypotheses s)) in
  Decode.files env !! Args.hypotheses args = Some (Decode.the_hypotheses s)
  ∧ match Args.source args with
    | Some path =>
        ∃ ss, Decode.files env !! path = Some ss
              ∧ Decode.the_sources s = Some ss
    | None => Decode.the_sources s = None
    end
  ∧ match Args.references args with
    | Some path =>
        Decode.files env !! path = Some (Decode.the_references s)
    | None => Decode.the_references s = Decode.the_hypotheses s
    end
  ∧ Args.num_candidates args ≠ 0
  ∧ Decode.the_num_sents s = len / Args.num_candidates args
  ∧ Decode.the_num_sents s * Args.num_candidates args = len.
Proof.
  unfold Decode.setup.
  destruct (match Args.source args with
            | Some path => _
            | None => _
            end) as [sources|e] eqn:Hsrc; [|done].
  rewrite bind_Ok.
  destruct (Decode.readlines env (Args.hypotheses args))
    as [hyps|e] eqn:Hhyp; [|done].
  rewrite bind_Ok.
  destruct (match Args.references args with
            | Some path => _
            | None => _
            end) as [refs|e] eqn:Href; [|done].
  rewrite bind_Ok.
  destruct (Decode.get_metric env _) as [mt|e]; [|done]. rewrite bind_Ok.
  destruct (metric_Config mt _) as [mc|e]; [|done]. rewrite bind_Ok.
  destruct (metric_new mt mc) as [m|e]; [|done]. rewrite bind_Ok.
  destruct (Decode.get_decoder env _) as [dt|e]; [|done]. rewrite bind_Ok.
  destruct (decoder_Config dt) as [dc|e]; [|done]. rewrite bind_Ok.
  destruct (decoder_new dt dc m) as [dec|e]; [|done]. rewrite bind_Ok.
  unfold py_floordiv.
  destruct (Z.eqb_spec (Args.num_candidates args) 0) as [?|Hnc]; [done|].
  rewrite bind_Ok.
  destruct (Z.eqb_spec
              (Z.of_nat (length hyps) / Args.num_candidates args
               * Args.num_candidates args)
              (Z.of_nat (length hyps))) as [Hdiv|?]; [|done].
  intros [= <-]. cbn.
  apply readlines_Ok in Hhyp. split_and!; try done.
  - destruct (Args.source args) as [path|].
    + destruct (Decode.readlines env path) as [ss|] eqn:Hss; [|done].
      apply readlines_Ok in Hss. cbn in Hsrc. injection Hsrc as <-. eauto.
    + by injection Hsrc as <-.
  - destruct (Args.references args) as [path|].
    + by apply readlines_Ok in Href.
    + by injection Href as <-.
Qed.

(** The run, in terms of the set-up, of the turns of the loop and of the
    statistics. *)
Lemma cli_main_eq :
  Decode.cli_main env args =
  match Decode.setup env args with
  | Raise e => (World_empty, Raise e)
  | Ok s =>
      let e := steps args (Decode.the_decoder s) (Decode.the_sources s)
                 (Decode.the_hypotheses s) (Decode.the_references s)
                 (py_range (Decode.the_num_sents s)) in
      match eff_result e with
      | Ok _ =>
          if Args.quiet args
          then (mkWorld (eff_calls e) (eff_lines e) [], Ok tt)
          else
            match Decode.statistics env (eff_calls e)
                    (Decode.the_num_sents s) with
            | Ok _ =>
                (mkWorld (eff_calls e) (eff_lines e)
                   [Decode.the_num_sents s], Ok tt)
            | Raise x => (mkWorld (eff_calls e) (eff_lines e) [], Raise x)
            end
      | Raise x => (mkWorld (eff_calls e) (eff_lines e) [], Raise x)
      end
  end.
Proof.
  unfold Decode.cli_main, Decode.main. rewrite Run_bind_eq. unfold lift.
  destruct (Decode.setup env args) as [s|e]; [|done].
  rewrite Run_bind_eq, decode_all_performs. cbn.
  destruct (eff_result _) as [[]|x]; [|done].
  destruct (Args.quiet args); cbn; [done|].
  unfold Decode.report. rewrite Run_bind_eq. unfold lift. cbn.
  by destruct (Decode.statistics env _ _) as [[]|x].
Qed.

(** The calls and the lines of a run that got through the set-up, and how
    its outcome follows from the loop and from the statistics. *)
Lemma cli_main_after_setup (s : Decode.Setup) (w : World) (r : result unit) :
  Decode.setup env args = Ok s →
  Decode.cli_main env args = (w, r) →
  let e := steps args (Decode.the_decoder s) (Decode.the_sources s)
             (Decode.the_hypotheses s) (Decode.the_references s)
             (py_range (Decode.the_num_sents s)) in
  calls w = eff_calls e
  ∧ output w = eff_lines e
  ∧ match eff_result e with
    | Ok _ =>
        if Args.quiet args then r = Ok tt ∧ reports w = []
        else
          match Decode.statistics env (eff_calls e)
                  (Decode.the_num_sents s) with
          | Ok _ => r = Ok tt ∧ reports w = [Decode.the_num_sents s]
          | Raise x => r = Raise x ∧ reports w = []
          end
    | Raise x => r = Raise x ∧ reports w = []
    end.
Proof.
  intros Hs. rewrite cli_main_eq, Hs. cbn zeta.
  destruct (eff_result _) as [[]|x].
  - destruct (Args.quiet args).
    + by intros [= <- <-].
    + destruct (Decode.statistics env _ _) as [[]|x]; by intros [= <- <-].
  - by intros [= <- <-].
Qed.

(** A run that completes has got through the set-up and the loop. *)
Lemma cli_main_Ok (w : World) :
  Decode.cli_main env args = (w, Ok tt) →
  ∃ s, Decode.setup env args = Ok s
       ∧ eff_result
           (steps args (Decode.the_decoder s) (Decode.the_sources s)
              (Decode.the_hypotheses s) (Decode.the_references s)
              (py_range (Decode.the_num_sents s))) = Ok tt.
Proof.
  intros Hrun. destruct (Decode.setup env args) as [s|e] eqn:Hs.
  - exists s. split; [done|].
    destruct (cli_main_after_setup s w (Ok tt) Hs Hrun) as (_ & _ & Hr).
    destruct (eff_result _) as [[]|x]; [done|]. by destruct Hr.
  - rewrite cli_main_eq, Hs in Hrun. done.
Qed.

(** No [decode] call and no printed line when the set-up fails. *)
Lemma cli_main_setup_fails (e : exn) :
  Decode.setup env args = Raise e →
  Decode.cli_main env args = (World_empty, Raise e).
Proof. intros H. by rewrite cli_main_eq, H. Qed.

(** Every call of a run is the call of its turn. *)
Lemma cli_main_calls (w : World) (r : result unit) (k : nat) (c : Call) :
  Decode.cli_main env args = (w, r) →
  calls w !! k = Some c →
  ∃ s, Decode.setup env args = Ok s
       ∧ Z.of_nat k < Decode.the_num_sents s
       ∧ call_at args (Decode.the_decoder s) (Decode.the_sources s)
           (Decode.the_hypotheses s) (Decode.the_references s) (Z.of_nat k)
         = Ok c.
Proof.
  destruct (Decode.setup env args) as [s|e] eqn:Hs.
  - intros Hrun Hk. exists s. split; [done|].
    destruct (cli_main_after_setup s w r Hs Hrun) as (Hcalls & _).
    rewrite Hcalls in Hk.
    apply steps_calls_lookup in Hk as (i & Hi & Hc).
    apply py_range_lookup in Hi as [-> ?]. done.
  - rewrite cli_main_eq, Hs. intros [= <- _]. done.
Qed.
End MainFacts.

(** ** Blocks of a file *)

Lemma concat_blocks {A} (size n : nat) (l : list A) :
  length l = (n * size)%nat →
  concat ((fun i => take size (drop (i * size) l)) <$> seq 0 n) = l.
Proof.
  revert l. induction n as [|n IH]; intros l Hlen.
  - by destruct l.
  - cbn [seq fmap list_fmap concat]. rewrite <- fmap_S_seq, <- list_fmap_compose.
    rewrite drop_0. etrans; [|apply (take_drop size l)]. f_equal.
    etrans; [|apply (IH (drop size l)); rewrite length_drop; lia].
    f_equal. apply list_fmap_ext. intros _ i _. cbn.
    by rewrite drop_drop, (Nat.add_comm size).
Qed.

Lemma fmap_by_index {A B} (g : A → B) (f : nat → B) (l : list A) :
  (∀ i x, l !! i = Some x → g x = f i) →
  g <$> l = f <$> seq 0 (length l).
Proof.
  intros H. apply list_eq. intros i.
  rewrite !list_lookup_fmap.
  destruct (l !! i) as [x|] eqn:Hx; cbn.
  - rewrite lookup_seq_lt by (by eapply lookup_lt_Some). cbn.
    by rewrite (H i x).
  - by rewrite lookup_seq_ge by (by apply lookup_ge_None).
Qed.

Lemma call_at_hyps {F} args (d : Decoder F) sources hyps refs i c :
  call_at args d sources hyps refs i = Ok c →
  call_hyps c = block hyps (Args.num_candidates args) i.
Proof.
  unfold call_at. destruct d.
  - destruct sources as [ss|]; [|done].
    destruct (py_getitem ss i); [|done]. by intros [= <-].
  - destruct sources as [ss|].
    + destruct (py_getitem ss i); [|done]. by intros [= <-].
    + by intros [= <-].
Qed.

Lemma call_at_reference_based {F} args (d : Decoder F) sources hyps refs i
    h r s n :
  call_at args d sources hyps refs i = Ok (CallReferenceBased h r s n) →
  h = block hyps (Args.num_candidates args) i
  ∧ r = block refs (Decode.num_refs args) i
  ∧ n = Args.nbest args.
Proof.
  unfold call_at. destruct d.
  - destruct sources as [ss|]; [|done].
    by destruct (py_getitem ss i).
  - destruct sources as [ss|].
    + destruct (py_getitem ss i); [|done]. by intros [= <- <- _ <-].
    + by intros [= <- <- _ <-].
Qed.

(** In a turn of the loop the number of candidates is positive and the
    block of the sentence lies in the file. *)
Lemma turn_in_range (len nc : Z) (k : nat) :
  0 ≤ len → nc ≠ 0 → len / nc * nc = len → Z.of_nat k < len / nc →
  0 < nc ∧ (Z.of_nat k + 1) * nc ≤ len.
Proof.
  intros Hlen Hnc Hdiv Hk.
  assert (0 < nc) as Hpos.
  { destruct (decide (0 < nc)) as [|Hneg]; [done|]. nia. }
  split; [done|]. nia.
Qed.

(** ** The claims on the command line *)

(** C1. When the number of lines of the hypotheses file is not a multiple
    of [num_candidates], the run ends with an exception, hence with a
    non-zero exit status, and [decode] has not been called and nothing has
    been printed. *)
Theorem C1_indivisible_run_fails {F Metric} (env : Decode.Env F Metric)
    (args : Args.Namespace) (lines : list string) :
  Decode.files env !! Args.hypotheses args = Some lines →
  ¬ (Args.num_candidates args | Z.of_nat (length lines)) →
  exit_status (snd (Decode.cli_main env args)) ≠ 0
  ∧ calls (fst (Decode.cli_main env args)) = []
  ∧ output (fst (Decode.cli_main env args)) = [].
Proof.
  intros Hfile Hndiv. rewrite cli_main_eq.
  destruct (Decode.setup env args) as [s|e] eqn:Hs; [|done].
  exfalso. apply Hndiv.
  destruct (setup_Ok env args s Hs) as (Hf & _ & _ & _ & _ & Hmul).
  rewrite Hfile in Hf. injection Hf as ->.
  exists (Decode.the_num_sents s). by rewrite Hmul.
Qed.

Lemma C1_witness :
  let env := Sample.env {[ "hyps.txt" := Sample.seven_lines ]} in
  let args := Sample.args "hyps.txt" None None 3 None "exact" 1 in
  exit_status (snd (Decode.cli_main env args)) ≠ 0
  ∧ calls (fst (Decode.cli_main env args)) = []
  ∧ output (fst (Decode.cli_main env args)) = [].
Proof.
  intros env args.
  apply (C1_indivisible_run_fails env args Sample.seven_lines).
  - reflexivity.
  - intros [q Hq]. cbn in Hq. lia.
Defined.

(** The fault scenario of the specification: seven lines, three
    candidates. The assertion fails. *)
Example seven_lines_three_candidates :
  Decode.cli_main (Sample.env {[ "hyps.txt" := Sample.seven_lines ]})
    (Sample.args "hyps.txt" None None 3 None "exact" 1)
  = (World_empty, Raise AssertionError).
Proof. vm_compute. reflexivity. Qed.

(** C2. Without a references file and without [--num-references], the
    references passed to a reference-based decoder for sentence [i] are the
    candidates of that sentence: the [num_candidates] lines of the
    hypotheses file that start at line [i * num_candidates], stripped. *)
Theorem C2_references_default_to_hypotheses {F Metric}
    (env : Decode.Env F Metric) (args : Args.Namespace)
    (w : World) (r : result unit) (i : nat)
    (hyps refs : list string) (src : option string) (n : Z) :
  Args.references args = None →
  Args.num_references args = None →
  Decode.cli_main env args = (w, r) →
  calls w !! i = Some (CallReferenceBased hyps refs src n) →
  ∃ lines, Decode.files env !! Args.hypotheses args = Some lines
    ∧ refs = hyps
    ∧ hyps = strip <$> take (Z.to_nat (Args.num_candidates args))
                         (drop (i * Z.to_nat (Args.num_candidates args)) lines)
    ∧ length hyps = Z.to_nat (Args.num_candidates args).
Proof.
  intros Hrefs Hnr Hrun Hcall.
  destruct (cli_main_calls env args w r i _ Hrun Hcall) as (s & Hs & Hi & Hc).
  destruct (setup_Ok env args s Hs) as (Hf & _ & Hr & Hnc & Hn & Hmul).
  rewrite Hrefs in Hr. rewrite Hn in Hi, Hmul.
  apply call_at_reference_based in Hc as (-> & -> & _).
  destruct (turn_in_range _ _ i (Nat2Z.is_nonneg _) Hnc Hmul Hi) as [Hpos Hin].
  exists (Decode.the_hypotheses s). split; [done|].
  unfold Decode.num_refs. rewrite Hnr, Hr. cbn [py_or]. split; [done|].
  rewrite block_nonneg, Nat2Z.id by lia. split; [done|].
  rewrite length_fmap, length_take, length_drop. nia.
Qed.

Lemma C2_witness :
  let env := Sample.env {[ "hyps.txt" := Sample.six_lines ]} in
  let args := Sample.args "hyps.txt" None None 3 None "exact" 1 in
  ∃ lines, Decode.files env !! Args.hypotheses args = Some lines
    ∧ ["x"; "y"; "y"] = ["x"; "y"; "y"]
    ∧ ["x"; "y"; "y"]
      = strip <$> take (Z.to_nat (Args.num_candidates args))
                    (drop (1 * Z.to_nat (Args.num_candidates args)) lines)
    ∧ length ["x"; "y"; "y"] = Z.to_nat (Args.num_candidates args).
Proof.
  intros env args.
  apply (C2_references_default_to_hypotheses env args
           (fst (Decode.cli_main env args)) (snd (Decode.cli_main env args))
           1 ["x"; "y"; "y"] ["x"; "y"; "y"] None 1).
  - reflexivity.
  - reflexivity.
  - vm_compute. reflexivity.
  - vm_compute. reflexivity.
Defined.

(** C7. The pool passed to [decode] for sentence [i] is made of the
    [num_candidates] lines of the hypotheses file from line
    [i * num_candidates] on, stripped; a run that completes has made one call
    per sentence, and the pools, put end to end, are the stripped file. *)
Theorem C7_pools_are_consecutive_blocks {F Metric}
    (env : Decode.Env F Metric) (args : Args.Namespace)
    (w : World) (r : result unit) (lines : list string) :
  Decode.files env !! Args.hypotheses args = Some lines →
  Decode.cli_main env args = (w, r) →
  let nc := Args.num_candidates args in
  let num_sents := Z.of_nat (length lines) / nc in
  (∀ (i : nat) (c : Call), calls w !! i = Some c →
     Z.of_nat i < num_sents
     ∧ call_hyps c
       = strip <$> take (Z.to_nat nc) (drop (i * Z.to_nat nc) lines)
     ∧ length (call_hyps c) = Z.to_nat nc)
  ∧ (r = Ok tt → 0 < nc →
     length (calls w) = Z.to_nat num_sents
     ∧ concat (call_hyps <$> calls w) = strip <$> lines).
Proof.
  intros Hfile Hrun nc num_sents.
  assert (∀ (i : nat) (c : Call), calls w !! i = Some c →
     Z.of_nat i < num_sents
     ∧ call_hyps c
       = strip <$> take (Z.to_nat nc) (drop (i * Z.to_nat nc) lines)
     ∧ length (call_hyps c) = Z.to_nat nc) as Hblocks.
  { intros i c Hcall.
    destruct (cli_main_calls env args w r i _ Hrun Hcall)
      as (s & Hs & Hi & Hc).
    destruct (setup_Ok env args s Hs) as (Hf & _ & _ & Hnc & Hn & Hmul).
    rewrite Hfile in Hf. injection Hf as Hf. rewrite <- Hf in *.
    rewrite Hn in Hi, Hmul.
    destruct (turn_in_range _ _ i (Nat2Z.is_nonneg _) Hnc Hmul Hi) as [Hpos Hin].
    apply call_at_hyps in Hc. rewrite Hc, block_nonneg, Nat2Z.id by lia.
    split_and!; [done..|].
    rewrite length_fmap, length_take, length_drop. fold nc in Hin. nia. }
  split; [exact Hblocks|].
  intros -> Hpos.
  destruct (cli_main_Ok env args w Hrun) as (s & Hs & Hres).
  destruct (cli_main_after_setup env args s w (Ok tt) Hs Hrun)
    as (Hw & _ & _).
  destruct (setup_Ok env args s Hs) as (Hf & _ & _ & Hnc & Hn & Hmul).
  rewrite Hfile in Hf. injection Hf as Hf. rewrite <- Hf in *.
  assert (length (calls w) = Z.to_nat num_sents) as Hlen.
  { rewrite Hw. apply steps_Ok in Hres as (-> & _).
    by rewrite py_range_length, Hn. }
  split; [done|].
  rewrite (fmap_by_index call_hyps
             (fun i => strip <$> take (Z.to_nat nc)
                                   (drop (i * Z.to_nat nc) lines)) (calls w))
    by (intros i c Hc; by apply Hblocks in Hc as (_ & Hc & _)).
  rewrite Hlen.
  rewrite <- (concat_blocks (Z.to_nat nc) (Z.to_nat num_sents) lines) at 1
    by (rewrite Hn in Hmul; fold nc num_sents in Hmul; nia).
  change (@fmap list _ _ _ strip) with (map strip).
  rewrite concat_map. f_equal.
  change (@map (list string) (list string) (map strip))
    with (@fmap list _ _ _ (map strip)).
  by rewrite <- list_fmap_compose.
Qed.

Lemma C7_witness :
  let env := Sample.env {[ "hyps.txt" := Sample.six_lines ]} in
  let args := Sample.args "hyps.txt" None None 3 None "exact" 1 in
  Decode.files env !! Args.hypotheses args = Some Sample.six_lines
  ∧ length (calls (fst (Decode.cli_main env args))) = 2%nat
  ∧ concat (call_hyps <$> calls (fst (Decode.cli_main env args)))
    = strip <$> Sample.six_lines.
Proof.
  intros env args. split; [reflexivity|].
  destruct (C7_pools_are_consecutive_blocks env args
              (fst (Decode.cli_main env args))
              (snd (Decode.cli_main env args)) Sample.six_lines)
    as [_ Hall].
  - reflexivity.
  - vm_compute. reflexivity.
  - apply Hall.
    + vm_compute. reflexivity.
    + reflexivity.
Defined.

(** C8. With a references file and without [--num-references], the block
    size used on the references file is [num_candidates]: the references
    of sentence [i] are the slice of the references file from
    [i * num_candidates] to [(i + 1) * num_candidates], stripped. *)
Theorem C8_reference_block_size_defaults_to_num_candidates {F Metric}
    (env : Decode.Env F Metric) (args : Args.Namespace)
    (path : string) (ref_lines : list string)
    (w : World) (r : result unit) (i : nat)
    (hyps refs : list string) (src : option string) (n : Z) :
  Args.references args = Some path →
  Args.num_references args = None →
  Decode.files env !! path = Some ref_lines →
  Decode.cli_main env args = (w, r) →
  calls w !! i = Some (CallReferenceBased hyps refs src n) →
  let nc := Args.num_candidates args in
  Decode.num_refs args = nc
  ∧ refs = strip <$> py_slice ref_lines (Z.of_nat i * nc) ((Z.of_nat i + 1) * nc)
  ∧ refs = strip <$> take (Z.to_nat nc) (drop (i * Z.to_nat nc) ref_lines).
Proof.
  intros Hrefs Hnr Hfile Hrun Hcall nc.
  destruct (cli_main_calls env args w r i _ Hrun Hcall) as (s & Hs & Hi & Hc).
  destruct (setup_Ok env args s Hs) as (_ & _ & Hr & Hnc & Hn & Hmul).
  rewrite Hrefs, Hfile in Hr. injection Hr as Hr. rewrite <- Hr in *.
  rewrite Hn in Hi, Hmul.
  destruct (turn_in_range _ _ i (Nat2Z.is_nonneg _) Hnc Hmul Hi) as [Hpos Hin].
  apply call_at_reference_based in Hc as (_ & -> & _).
  assert (Decode.num_refs args = nc) as ->.
  { unfold Decode.num_refs. by rewrite Hnr. }
  split; [done|]. split; [done|].
  by rewrite block_nonneg, Nat2Z.id by lia.
Qed.

Lemma C8_witness :
  let env := Sample.env {[ "hyps.txt" := Sample.six_lines;
                           "refs.txt" := Sample.seven_lines ]} in
  let args := Sample.args "hyps.txt" None (Some "refs.txt") 3 None "exact" 1 in
  Decode.num_refs args = 3
  ∧ ["d"; "e"; "f"]
    = strip <$> py_slice Sample.seven_lines (Z.of_nat 1 * 3)
                  ((Z.of_nat 1 + 1) * 3)
  ∧ ["d"; "e"; "f"]
    = strip <$> take (Z.to_nat 3) (drop (1 * Z.to_nat 3) Sample.seven_lines).
Proof.
  intros env args.
  apply (C8_reference_block_size_defaults_to_num_candidates env args
           "refs.txt" Sample.seven_lines
           (fst (Decode.cli_main env args)) (snd (Decode.cli_main env args))
           1 ["x"; "y"; "y"] ["d"; "e"; "f"] None 1).
  - reflexivity.
  - reflexivity.
  - reflexivity.
  - vm_compute. reflexivity.
  - vm_compute. reflexivity.
Defined.

(** C10, as stated, fails: with [--num-references 0] the block size falls
    back to [num_candidates], and with [--num-references 5] on a file of one
    sentence of three candidates the slice stops at the end of the file; in
    both runs the references are the sentence's own candidates although the
    value given differs from [num_candidates]. *)
Lemma C10_counterexample :
  let env := Sample.env {[ "hyps.txt" := Sample.three_lines ]} in
  let pool := ["a b c"; "a b d"; "a b c"] in
  (0 ≠ 3
   ∧ calls (fst (Decode.cli_main env
                   (Sample.args "hyps.txt" None None 3 (Some 0) "exact" 1)))
     = [CallReferenceBased pool pool None 1])
  ∧ (5 ≠ 3
     ∧ calls (fst (Decode.cli_main env
                     (Sample.args "hyps.txt" None None 3 (Some 5) "exact" 1)))
       = [CallReferenceBased pool pool None 1]).
Proof.
  cbv zeta. split; (split; [lia|]); vm_compute; reflexivity.
Qed.

(** C10, amended. Without a references file and with [--num-references]
    set to a non-zero [nr], the references of sentence [i] are the slice
    [i * nr : (i + 1) * nr] of the lines of the hypotheses file, stripped;
    for a positive [nr] these are the lines [i * nr] to [(i + 1) * nr - 1]
    that the file has. They are the candidates of the sentence when [nr] is
    [num_candidates]. When [nr] is positive and is not [num_candidates] and
    the file holds two sentences or more, the references of the first
    sentence are not as many as its candidates, and some sentence has a
    reference which is a line of the pool of another sentence. *)
Theorem C10_references_cut_from_hypotheses {F Metric}
    (env : Decode.Env F Metric) (args : Args.Namespace) (nr : Z)
    (lines : list string) (w : World) (r : result unit) :
  Args.references args = None →
  Args.num_references args = Some nr →
  nr ≠ 0 →
  Decode.files env !! Args.hypotheses args = Some lines →
  Decode.cli_main env args = (w, r) →
  let nc := Args.num_candidates args in
  let len := Z.of_nat (length lines) in
  (∀ (i : nat) hyps refs src n,
     calls w !! i = Some (CallReferenceBased hyps refs src n) →
     refs = strip <$> py_slice lines (Z.of_nat i * nr) ((Z.of_nat i + 1) * nr)
     ∧ (0 < nr →
        refs = strip <$> take (Z.to_nat nr) (drop (i * Z.to_nat nr) lines))
     ∧ (nr = nc → refs = hyps)
     ∧ (0 < nr → nr ≠ nc → 2 * nc ≤ len → i = 0%nat →
        length refs ≠ length hyps))
  ∧ (0 < nr → nr ≠ nc → 0 < nc → 2 * nc ≤ len →
     ∃ (i : nat) (k : nat),
       Z.of_nat i < len / nc
       ∧ is_Some (py_slice lines (Z.of_nat i * nr) ((Z.of_nat i + 1) * nr)
                  !! k)
       ∧ (Z.of_nat i * nr + Z.of_nat k) / nc ≠ Z.of_nat i).
Proof.
  intros Hrefs Hnr Hnz Hfile Hrun nc len. split.
  - intros i hyps refs src n Hcall.
    destruct (cli_main_calls env args w r i _ Hrun Hcall)
      as (s & Hs & Hi & Hc).
    destruct (setup_Ok env args s Hs) as (Hf & _ & Hr & Hnc & Hn & Hmul).
    rewrite Hfile in Hf. injection Hf as Hf. rewrite <- Hf in *.
    rewrite Hrefs in Hr. rewrite Hn in Hi, Hmul.
    destruct (turn_in_range _ _ i (Nat2Z.is_nonneg _) Hnc Hmul Hi)
      as [Hpos Hin].
    apply call_at_reference_based in Hc as (-> & -> & _).
    assert (Decode.num_refs args = nr) as ->.
    { unfold Decode.num_refs. rewrite Hnr. cbn.
      by destruct (Z.eqb_spec nr 0). }
    rewrite Hr. fold nc in Hpos, Hin |- *. split_and!.
    + done.
    + intros Hnrpos. by rewrite block_nonneg, Nat2Z.id by lia.
    + by intros ->.
    + intros Hnrpos Hne Htwo ->.
      rewrite !block_nonneg by lia.
      rewrite !length_fmap, !length_take, !length_drop. fold len in Htwo.
      subst len. lia.
  - intros Hnrpos Hne Hncpos Htwo.
    assert (2 ≤ len / nc) by (apply Z.div_le_lower_bound; lia).
    destruct (decide (nc < nr)) as [Hlt|Hge].
    + exists 0%nat, (Z.to_nat nc). split_and!.
      * lia.
      * rewrite py_slice_nonneg by lia. apply lookup_lt_is_Some.
        rewrite length_take, length_drop. subst len. lia.
      * rewrite Z2Nat.id by lia. cbn. rewrite Z.div_same by lia. lia.
    + exists 1%nat, 0%nat. split_and!.
      * lia.
      * rewrite py_slice_nonneg by lia. apply lookup_lt_is_Some.
        rewrite length_take, length_drop. subst len. lia.
      * cbn. rewrite Z.add_0_r, Z.div_small by lia. lia.
Qed.

Lemma C10_witness :
  let env := Sample.env {[ "hyps.txt" := Sample.six_lines ]} in
  ∃ (i k : nat),
    Z.of_nat i < 6 / 3
    ∧ is_Some (py_slice Sample.six_lines (Z.of_nat i * 2) ((Z.of_nat i + 1) * 2)
               !! k)
    ∧ (Z.of_nat i * 2 + Z.of_nat k) / 3 ≠ Z.of_nat i.
Proof.
  intros env.
  pose (args := Sample.args "hyps.txt" None None 3 (Some 2) "exact" 1).
  destruct (C10_references_cut_from_hypotheses env args 2 Sample.six_lines
              (fst (Decode.cli_main env args))
              (snd (Decode.cli_main env args))) as [_ Hex].
  - reflexivity.
  - reflexivity.
  - lia.
  - reflexivity.
  - vm_compute. reflexivity.
  - apply Hex; cbn; lia.
Defined.

Lemma py_range_pos (n : Z) :
  0 < n → py_range n = 0 :: (Z.of_nat <$> seq 1 (Z.to_nat n - 1)).
Proof.
  intros Hn. unfold py_range.
  replace (Z.to_nat n) with (S (Z.to_nat n - 1)) at 1 by lia. done.
Qed.

Lemma py_range_nonpos (n : Z) : n ≤ 0 → py_range n = [].
Proof.
  intros Hn. unfold py_range. by replace (Z.to_nat n) with 0%nat by lia.
Qed.

(** C5, as stated, fails: a reference-free run without a source, with
    [--quiet], on an empty hypotheses file raises no fault; it ends
    normally. *)
Lemma C5_counterexample :
  let env := Sample.env {[ "hyps.txt" := [] ]} in
  let args :=
    SampleRun.quiet
      (Sample.args "hyps.txt" None None 3 None "exact_qe" 1) in
  Args.source args = None
  ∧ (∃ s decode, Decode.setup env args = Ok s
                 ∧ Decode.the_decoder s = DecoderReferenceless decode)
  ∧ Decode.cli_main env args = (World_empty, Ok tt)
  ∧ exit_status (snd (Decode.cli_main env args)) = 0.
Proof.
  cbv zeta. split; [reflexivity|]. split.
  - eexists _, _. split; vm_compute; reflexivity.
  - split; vm_compute; reflexivity.
Qed.

(** C5, amended. In a reference-free run without a source, [decode] is
    never called; when there is a sentence to decode, the run stops on the
    first sentence with [TypeError], before any call and before anything is
    printed; when there is no sentence, the missing source raises nothing:
    the run ends normally with [--quiet], and as the computation of the
    statistics ends without it. *)
Theorem C5_no_source_stops_before_decoding {F Metric}
    (env : Decode.Env F Metric) (args : Args.Namespace)
    (s : Decode.Setup) (decode : list string → string → Z → result (Output F)) :
  Args.source args = None →
  Decode.setup env args = Ok s →
  Decode.the_decoder s = DecoderReferenceless decode →
  calls (fst (Decode.cli_main env args)) = []
  ∧ (0 < Decode.the_num_sents s →
     Decode.cli_main env args = (World_empty, Raise TypeError))
  ∧ (Decode.the_num_sents s ≤ 0 →
     snd (Decode.cli_main env args)
     = if Args.quiet args then Ok tt
       else Decode.statistics env [] (Decode.the_num_sents s)).
Proof.
  intros Hsrc Hs Hd. rewrite cli_main_eq, Hs. cbn zeta.
  destruct (setup_Ok env args s Hs) as (_ & Hnone & _).
  rewrite Hsrc in Hnone. rewrite Hd, Hnone.
  destruct (decide (0 < Decode.the_num_sents s)) as [Hpos|Hneg].
  - rewrite py_range_pos by done.
    rewrite (steps_raise_first _ _ _ _ _ _ _ TypeError) by reflexivity.
    cbn. split_and!; [done..|lia].
  - rewrite py_range_nonpos by lia. cbn.
    destruct (Args.quiet args); cbn.
    + split_and!; [done|lia|done].
    + destruct (Decode.statistics env [] _) as [[]|x]; cbn;
        split_and!; (done || lia).
Qed.

Lemma C5_witness :
  let env := Sample.env {[ "hyps.txt" := Sample.six_lines ]} in
  let args := Sample.args "hyps.txt" None None 3 None "exact_qe" 1 in
  Decode.cli_main env args = (World_empty, Raise TypeError).
Proof.
  intros env args.
  pose (decode := DecoderSpec.decode_referenceless Sample.Qltb
                    (fun h s => Ok (Sample.exact_match h s))).
  pose (s := Decode.mkSetup None Sample.six_lines Sample.six_lines
               (DecoderReferenceless decode) 2).
  destruct (C5_no_source_stops_before_decoding env args s decode)
    as (_ & Hstop & _).
  - reflexivity.
  - reflexivity.
  - reflexivity.
  - apply Hstop. reflexivity.
Defined.

(** ** The decoding engine *)

Lemma result_mapM_length {A B} (f : A → result B) (l : list A) (ys : list B) :
  result_mapM f l = Ok ys → length ys = length l.
Proof.
  revert ys. induction l as [|x l IH]; intros ys; cbn.
  - by intros [= <-].
  - destruct (f x) as [y|e]; [|done]. cbn.
    destruct (result_mapM f l) as [ys'|e]; [|done]. cbn.
    intros [= <-]. cbn. by rewrite (IH ys').
Qed.

Section EngineFacts.
Context {F : Type}.
Variable ltb : F → F → bool.
Variable mean : list F → F.

Lemma insert_ranked_Permutation (x : nat * F) (l : list (nat * F)) :
  DecoderSpec.insert_ranked ltb x l ≡ₚ x :: l.
Proof.
  induction l as [|y l IH]; cbn; [done|].
  destruct (ltb x.2 y.2); [|done].
  rewrite IH. apply Permutation_swap.
Qed.

Lemma rank_Permutation (scores : list F) :
  DecoderSpec.rank ltb scores ≡ₚ imap pair scores.
Proof.
  unfold DecoderSpec.rank.
  induction (imap pair scores) as [|x l IH]; cbn; [done|].
  by rewrite insert_ranked_Permutation, IH.
Qed.

Lemma rank_length (scores : list F) :
  length (DecoderSpec.rank ltb scores) = length scores.
Proof. by rewrite rank_Permutation, length_imap. Qed.

Lemma rank_index (scores : list F) (p : nat * F) :
  p ∈ DecoderSpec.rank ltb scores → scores !! p.1 = Some p.2.
Proof.
  rewrite rank_Permutation. intros (i & x & -> & Hx)%elem_of_lookup_imap.
  done.
Qed.

Lemma select_sentence_length (hyps : list string) (scores : list F) (n : Z) :
  length (sentence (DecoderSpec.select ltb hyps scores n))
  = (Z.to_nat n `min` length scores)%nat.
Proof. cbn. by rewrite length_fmap, length_take, rank_length. Qed.

Lemma select_sentence_elem (hyps : list string) (scores : list F) (n : Z)
    (x : string) :
  length scores = length hyps →
  x ∈ sentence (DecoderSpec.select ltb hyps scores n) → x ∈ hyps.
Proof.
  intros Hlen. cbn. intros (p & -> & Hp)%list_elem_of_fmap.
  apply elem_of_take in Hp as (k & Hp & _).
  apply list_elem_of_lookup_2, rank_index, lookup_lt_Some in Hp.
  rewrite Hlen in Hp. apply lookup_lt_is_Some in Hp as [h Hh].
  rewrite Hh. cbn. by eapply list_elem_of_lookup_2.
Qed.

Lemma validate_Ok (hyps : list string) (n : Z) :
  DecoderSpec.validate hyps n = Ok tt → 1 ≤ n ∧ hyps ≠ [].
Proof.
  unfold DecoderSpec.validate. destruct (Z.ltb_spec n 1); [done|].
  by destruct hyps.
Qed.

Lemma decode_referenceless_Ok score hyps src n (o : Output F) :
  DecoderSpec.decode_referenceless ltb score hyps src n = Ok o →
  1 ≤ n ∧ ∃ scores, length scores = length hyps
                    ∧ o = DecoderSpec.select ltb hyps scores n.
Proof.
  unfold DecoderSpec.decode_referenceless.
  destruct (DecoderSpec.validate hyps n) as [[]|e] eqn:Hv; [|done].
  apply validate_Ok in Hv as [Hn _]. cbn.
  destruct (result_mapM _ hyps) as [scores|e] eqn:Hm; [|done]. cbn.
  intros [= <-]. split; [done|]. exists scores.
  by rewrite (result_mapM_length _ _ _ Hm).
Qed.

Lemma decode_reference_based_Ok score hyps refs src n (o : Output F) :
  DecoderSpec.decode_reference_based ltb mean score hyps refs src n = Ok o →
  1 ≤ n ∧ ∃ scores, length scores = length hyps
                    ∧ o = DecoderSpec.select ltb hyps scores n.
Proof.
  unfold DecoderSpec.decode_reference_based.
  destruct (DecoderSpec.validate hyps n) as [[]|e] eqn:Hv; [|done].
  apply validate_Ok in Hv as [Hn _]. cbn.
  destruct refs as [|r refs]; [done|].
  destruct (result_mapM _ hyps) as [matrix|e] eqn:Hm; [|done]. cbn.
  intros [= <-]. split; [done|]. exists (mean <$> matrix).
  by rewrite length_fmap, (result_mapM_length _ _ _ Hm).
Qed.

Lemma decoder_new_engine cfg metric (d : Decoder F) :
  decoder_new (DecoderSpec.decoder_type ltb mean) cfg metric = Ok d →
  engine_decoder ltb mean d.
Proof.
  cbn. destruct metric as [score|score]; intros [= <-].
  - left. by exists score.
  - right. by exists score.
Qed.

Lemma answer_engine (d : Decoder F) (c : Call) (o : Output F) :
  engine_decoder ltb mean d → answer d c = Ok o →
  1 ≤ call_nbest c
  ∧ ∃ scores, length scores = length (call_hyps c)
              ∧ o = DecoderSpec.select ltb (call_hyps c) scores
                      (call_nbest c).
Proof.
  intros [[score ->]|[score ->]]; destruct c; cbn; try done.
  - apply decode_reference_based_Ok.
  - apply decode_referenceless_Ok.
Qed.
End EngineFacts.

Lemma call_at_nbest {F} args (d : Decoder F) sources hyps refs i c :
  call_at args d sources hyps refs i = Ok c →
  call_nbest c = Args.nbest args.
Proof.
  unfold call_at. destruct d.
  - destruct sources as [ss|]; [|done].
    destruct (py_getitem ss i); [|done]. by intros [= <-].
  - destruct sources as [ss|].
    + destruct (py_getitem ss i); [|done]. by intros [= <-].
    + by intros [= <-].
Qed.

(** The decoder of a run is the one its class builds. *)
Lemma setup_decoder {F Metric} (env : Decode.Env F Metric)
    (args : Args.Namespace) (s : Decode.Setup) :
  Decode.setup env args = Ok s →
  ∃ dt dc m, Decode.get_decoder env (Args.decoder args) = Ok dt
             ∧ decoder_new dt dc m = Ok (Decode.the_decoder s).
Proof.
  unfold Decode.setup.
  destruct (match Args.source args with
            | Some path => _
            | None => _
            end) as [sources|e]; [|done].
  rewrite bind_Ok.
  destruct (Decode.readlines env (Args.hypotheses args)) as [hyps|e]; [|done].
  rewrite bind_Ok.
  destruct (match Args.references args with
            | Some path => _
            | None => _
            end) as [refs|e]; [|done].
  rewrite bind_Ok.
  destruct (Decode.get_metric env _) as [mt|e]; [|done]. rewrite bind_Ok.
  destruct (metric_Config mt _) as [mc|e]; [|done]. rewrite bind_Ok.
  destruct (metric_new mt mc) as [m|e]; [|done]. rewrite bind_Ok.
  destruct (Decode.get_decoder env _) as [dt|e]; [|done]. rewrite bind_Ok.
  destruct (decoder_Config dt) as [dc|e]; [|done]. rewrite bind_Ok.
  destruct (decoder_new dt dc m) as [dec|e] eqn:Hnew; [|done].
  rewrite bind_Ok.
  destruct (py_floordiv _ _) as [n|e]; [|done]. rewrite bind_Ok.
  destruct (_ =? _); [|done].
  intros [= <-]. cbn. by exists dt, dc, m.
Qed.

(** C6, as stated, fails: with [--nbest 5] and three candidates per
    sentence, the run on one sentence is well formed and prints three
    lines. *)
Lemma C6_counterexample :
  let env := Sample.env {[ "hyps.txt" := Sample.three_lines ]} in
  let args := Sample.args "hyps.txt" None None 3 None "exact" 5 in
  Args.nbest args = 5
  ∧ Decode.cli_main env args
    = (mkWorld
         [CallReferenceBased ["a b c"; "a b d"; "a b c"]
            ["a b c"; "a b d"; "a b c"] None 5]
         ["a b c"; "a b c"; "a b d"] [1],
       Ok tt)
  ∧ length (output (fst (Decode.cli_main env args))) ≠ 5%nat.
Proof.
  cbv zeta. split; [reflexivity|]. split.
  - vm_compute. reflexivity.
  - vm_compute. lia.
Qed.

Section Ranking.
Context {F : Type}.
Variable ltb : F → F → bool.
Hypothesis ltb_asym : ∀ a b, ltb a b = true → ltb b a = false.
Hypothesis ltb_negtrans :
  ∀ a b c, ltb a b = false → ltb b c = false → ltb a c = false.

Lemma insert_ranked_sorted (x : nat * F) (l : list (nat * F)) :
  StronglySorted (ranked_before ltb) l →
  Forall (fun y => (x.1 < y.1)%nat) l →
  StronglySorted (ranked_before ltb) (DecoderSpec.insert_ranked ltb x l).
Proof.
  induction l as [|y l IH]; cbn; intros Hs Hx.
  - repeat constructor.
  - apply StronglySorted_inv in Hs as [Hs Hy].
    apply Forall_cons in Hx as [Hxy Hx].
    destruct (ltb x.2 y.2) eqn:Hlt.
    + constructor; [by apply IH|].
      rewrite insert_ranked_Permutation. constructor; [|done].
      split; [by apply ltb_asym|]. congruence.
    + constructor; [by constructor|].
      constructor; [by split|].
      rewrite Forall_forall in Hy, Hx |- *. intros z Hz. split.
      * apply (ltb_negtrans _ y.2); [done|]. by apply Hy.
      * intros _. by apply Hx.
Qed.

Lemma rank_from_sorted (k : nat) (scores : list F) :
  let l := foldr (DecoderSpec.insert_ranked ltb) []
             (imap (fun i x => ((k + i)%nat, x)) scores) in
  StronglySorted (ranked_before ltb) l
  ∧ Forall (fun y => (k ≤ y.1)%nat) l.
Proof.
  revert k. induction scores as [|x scores IH]; intros k; cbn.
  - split; constructor.
  - destruct (IH (S k)) as [Hs Hk].
    rewrite (imap_ext _ (fun i x => ((S k + i)%nat, x)))
      by (intros; cbn; f_equal; lia).
    split.
    + apply insert_ranked_sorted; [done|].
      eapply Forall_impl; [exact Hk|]. cbn. lia.
    + rewrite insert_ranked_Permutation. constructor; [cbn; lia|].
      eapply Forall_impl; [exact Hk|]. cbn. lia.
Qed.

(** The ranking is in the order of the ranked result. *)
Lemma rank_sorted (scores : list F) :
  StronglySorted (ranked_before ltb) (DecoderSpec.rank ltb scores).
Proof. apply (rank_from_sorted 0). Qed.
End Ranking.

(** What a decoder of the engine answers, in terms of the utilities of its
    metric. *)
Lemma answer_utilities {F} (ltb : F → F → bool) (mean : list F → F)
    dc (m : DecoderSpec.Capability F) (d : Decoder F) (c : Call)
    (o : Output F) :
  decoder_new (DecoderSpec.decoder_type ltb mean) dc m = Ok d →
  answer d c = Ok o →
  1 ≤ call_nbest c
  ∧ ∃ scores, utilities mean m c = Ok scores
              ∧ length scores = length (call_hyps c)
              ∧ o = DecoderSpec.select ltb (call_hyps c) scores
                      (call_nbest c).
Proof.
  cbn. destruct m as [score|score]; intros [= <-]; destruct c; cbn;
    try done.
  - unfold DecoderSpec.decode_reference_based.
    destruct (DecoderSpec.validate hyps nbest) as [[]|e] eqn:Hv; [|done].
    apply validate_Ok in Hv as [Hn _]. cbn.
    destruct refs as [|r refs]; [done|].
    destruct (result_mapM _ hyps) as [matrix|e] eqn:Hm; [|done]. cbn.
    intros [= <-]. split; [done|]. exists (mean <$> matrix).
    by rewrite length_fmap, (result_mapM_length _ _ _ Hm).
  - unfold DecoderSpec.decode_referenceless.
    destruct (DecoderSpec.validate hyps nbest) as [[]|e] eqn:Hv; [|done].
    apply validate_Ok in Hv as [Hn _]. cbn.
    destruct (result_mapM _ hyps) as [scores|e] eqn:Hm; [|done]. cbn.
    intros [= <-]. split; [done|]. exists scores.
    by rewrite (result_mapM_length _ _ _ Hm).
Qed.

(** The decoder of a run is built from the metric of the run. *)
Lemma setup_built {F Metric} (env : Decode.Env F Metric)
    (args : Args.Namespace) (s : Decode.Setup) :
  Decode.setup env args = Ok s →
  decoder_built env args (Decode.the_decoder s).
Proof.
  unfold Decode.setup, decoder_built.
  destruct (match Args.source args with
            | Some path => _
            | None => _
            end) as [sources|e]; [|done].
  rewrite bind_Ok.
  destruct (Decode.readlines env (Args.hypotheses args)) as [hyps|e]; [|done].
  rewrite bind_Ok.
  destruct (match Args.references args with
            | Some path => _
            | None => _
            end) as [refs|e]; [|done].
  rewrite bind_Ok.
  destruct (Decode.get_metric env _) as [mt|e]; [|done]. rewrite bind_Ok.
  destruct (metric_Config mt _) as [mc|e] eqn:Hmc; [|done]. rewrite bind_Ok.
  destruct (metric_new mt mc) as [m|e] eqn:Hm; [|done]. rewrite bind_Ok.
  destruct (Decode.get_decoder env _) as [dt|e]; [|done]. rewrite bind_Ok.
  destruct (decoder_Config dt) as [dc|e] eqn:Hdc; [|done]. rewrite bind_Ok.
  destruct (decoder_new dt dc m) as [dec|e] eqn:Hnew; [|done].
  rewrite bind_Ok.
  destruct (py_floordiv _ _) as [n|e]; [|done]. rewrite bind_Ok.
  destruct (_ =? _); [|done].
  intros [= <-]. cbn. by exists mt, mc, m, dt, dc.
Qed.

(** C6, amended. On a run that completes, with the decoders of the
    engine and an order on scores that is asymmetric and whose negation is
    transitive, the lines printed are, sentence after sentence, the texts
    of the hypotheses selected for the sentence, in ranked order: the first
    [nbest] of the ranking of the pool by the utilities that the metric of
    the run gives its hypotheses, best first, ties in the order of the
    pool. These are [min nbest num_candidates] lines per sentence, that is
    [nbest] lines unless [nbest] exceeds the number of candidates. *)
Theorem C6_lines_printed_per_sentence {F} (ltb : F → F → bool)
    (mean : list F → F)
    (env : Decode.Env F (DecoderSpec.Capability F)) (args : Args.Namespace)
    (w : World) (lines : list string)
    (mt : MetricType (DecoderSpec.Capability F)) (mc : MetricConfig mt)
    (m : DecoderSpec.Capability F) :
  (∀ a b, ltb a b = true → ltb b a = false) →
  (∀ a b c, ltb a b = false → ltb b c = false → ltb a c = false) →
  Decode.get_metric env (Args.metric args) = Ok mt →
  metric_Config mt (Decode.metric_cfg_args args) = Ok mc →
  metric_new mt mc = Ok m →
  Decode.get_decoder env (Args.decoder args)
  = Ok (DecoderSpec.decoder_type ltb mean) →
  Decode.files env !! Args.hypotheses args = Some lines →
  Decode.cli_main env args = (w, Ok tt) →
  let nc := Args.num_candidates args in
  let nbest := Args.nbest args in
  ∃ blocks : list (list string),
    output w = concat blocks
    ∧ length blocks = Z.to_nat (Z.of_nat (length lines) / nc)
    ∧ ∀ (i : nat) (b : list string), blocks !! i = Some b →
        let pool :=
          strip <$> take (Z.to_nat nc) (drop (i * Z.to_nat nc) lines) in
        length b = Z.to_nat (Z.min nbest nc)
        ∧ (∀ x, x ∈ b → x ∈ pool)
        ∧ ∃ (c : Call) (scores : list F) (ranking : list (nat * F)),
            calls w !! i = Some c
            ∧ call_hyps c = pool
            ∧ utilities mean m c = Ok scores
            ∧ length scores = length pool
            ∧ ranking ≡ₚ imap pair scores
            ∧ StronglySorted (ranked_before ltb) ranking
            ∧ b = (fun p => default "" (pool !! p.1))
                  <$> take (Z.to_nat nbest) ranking.
Proof.
  intros Hasym Hneg Hmt Hmc Hm Hdec Hfile Hrun nc nbest.
  destruct (cli_main_Ok env args w Hrun) as (s & Hs & Hres).
  destruct (cli_main_after_setup env args s w (Ok tt) Hs Hrun)
    as (Hcalls & Hout & _).
  destruct (setup_Ok env args s Hs) as (Hf & _ & _ & Hnc & Hn & Hmul).
  rewrite Hfile in Hf. injection Hf as Hf. rewrite <- Hf in *.
  destruct (setup_built env args s Hs)
    as (mt' & mc' & m' & dt & dc & Hmt' & Hmc' & Hm' & Hdt & _ & Hnew).
  rewrite Hmt in Hmt'. injection Hmt' as <-.
  rewrite Hmc in Hmc'. injection Hmc' as <-.
  rewrite Hm in Hm'. injection Hm' as <-.
  rewrite Hdec in Hdt. injection Hdt as <-.
  apply steps_Ok in Hres as (_ & Hlines & Hall).
  exists (lines_at args (Decode.the_decoder s) (Decode.the_sources s) lines
            (Decode.the_references s)
          <$> py_range (Decode.the_num_sents s)).
  split; [by rewrite Hout|]. split.
  { by rewrite length_fmap, py_range_length, Hn. }
  intros i b Hb pool. rewrite list_lookup_fmap in Hb.
  destruct (py_range _ !! i) as [j|] eqn:Hj; [|done].
  injection Hb as <-.
  destruct (Hall i j Hj) as (c & o & Hcall & Hc & Ha).
  apply py_range_lookup in Hj as [-> Hi]. rewrite Hn in Hi, Hmul.
  destruct (turn_in_range _ _ i (Nat2Z.is_nonneg _) Hnc Hmul Hi) as [Hpos Hin].
  unfold lines_at. rewrite Hc, Ha.
  destruct (answer_utilities ltb mean dc m _ c o Hnew Ha)
    as (Hn1 & scores & Hu & Hlen & ->).
  rewrite (call_at_nbest _ _ _ _ _ _ _ Hc) in *.
  pose proof (call_at_hyps _ _ _ _ _ _ _ Hc) as Hpoolc.
  rewrite block_nonneg, Nat2Z.id in Hpoolc by lia.
  fold nc pool in Hpoolc. rewrite Hpoolc in *.
  fold nc nbest in Hlen, Hn1, Hpos, Hin |- *.
  assert (length pool = Z.to_nat nc) as Hpool.
  { unfold pool. rewrite length_fmap, length_take, length_drop. nia. }
  split_and!.
  - rewrite select_sentence_length, Hlen, Hpool. lia.
  - intros x. by apply select_sentence_elem.
  - exists c, scores, (DecoderSpec.rank ltb scores). split_and!.
    + by rewrite Hcalls.
    + done.
    + done.
    + done.
    + apply rank_Permutation.
    + by apply rank_sorted.
    + done.
Qed.

Lemma Qltb_asym (a b : Q) :
  Sample.Qltb a b = true → Sample.Qltb b a = false.
Proof.
  unfold Sample.Qltb. intros Hab.
  destruct (Qle_bool a b) eqn:Hle; [done|]. exfalso.
  destruct (Qle_bool b a) eqn:Hba; [done|].
  assert (¬ (a <= b)%Q) as Hn1 by (rewrite <- Qle_bool_iff; congruence).
  assert (¬ (b <= a)%Q) as Hn2 by (rewrite <- Qle_bool_iff; congruence).
  apply Qnot_le_lt in Hn1, Hn2. apply Qlt_le_weak in Hn1.
  by apply Qle_not_lt in Hn1.
Qed.

Lemma Qltb_negtrans (a b c : Q) :
  Sample.Qltb a b = false → Sample.Qltb b c = false →
  Sample.Qltb a c = false.
Proof.
  unfold Sample.Qltb. rewrite !negb_false_iff, !Qle_bool_iff.
  intros Hba Hcb. by eapply Qle_trans.
Qed.

Lemma C6_witness :
  let env := Sample.env {[ "hyps.txt" := Sample.six_lines ]} in
  let args := Sample.args "hyps.txt" None None 3 None "exact" 2 in
  ∃ blocks : list (list string),
    output (fst (Decode.cli_main env args)) = concat blocks
    ∧ length blocks = Z.to_nat (Z.of_nat (length Sample.six_lines) / 3)
    ∧ ∀ (i : nat) (b : list string), blocks !! i = Some b →
        let pool :=
          strip <$> take (Z.to_nat 3) (drop (i * Z.to_nat 3) Sample.six_lines)
        in
        length b = Z.to_nat (Z.min 2 3)
        ∧ (∀ x, x ∈ b → x ∈ pool)
        ∧ ∃ (c : Call) (scores : list Q) (ranking : list (nat * Q)),
            calls (fst (Decode.cli_main env args)) !! i = Some c
            ∧ call_hyps c = pool
            ∧ utilities Sample.Qmean SampleRun.rb_metric c = Ok scores
            ∧ length scores = length pool
            ∧ ranking ≡ₚ imap pair scores
            ∧ StronglySorted (ranked_before Sample.Qltb) ranking
            ∧ b = (fun p => default "" (pool !! p.1))
                  <$> take (Z.to_nat 2) ranking.
Proof.
  intros env args.
  apply (C6_lines_printed_per_sentence Sample.Qltb Sample.Qmean env args
           (fst (Decode.cli_main env args)) Sample.six_lines
           (Sample.metric_type SampleRun.rb_metric) tt SampleRun.rb_metric).
  - apply Qltb_asym.
  - apply Qltb_negtrans.
  - reflexivity.
  - reflexivity.
  - reflexivity.
  - reflexivity.
  - reflexivity.
  - vm_compute. reflexivity.
Defined.

(** On the sample run the first block is the best hypothesis twice: the
    ranking by exact match against the pool puts the two equal lines
    first. *)
Example ranked_sample_run :
  output (fst (Decode.cli_main
                 (Sample.env {[ "hyps.txt" := Sample.six_lines ]})
                 (Sample.args "hyps.txt" None None 3 None "exact" 2)))
  = ["a b c"; "a b c"; "y"; "y"].
Proof. vm_compute. reflexivity. Qed.

(** The example scenario of the specification on the engine. *)
Example engine_example :
  sentence <$> DecoderSpec.decode_reference_based Sample.Qltb Sample.Qmean
                 (fun h r _ => Ok (Sample.exact_match h r))
                 ["a b c"; "a b d"; "x y z"] ["a b c"; "a b c"] None 1
  = Ok ["a b c"].
Proof. vm_compute. reflexivity. Qed.

(** ** The claims on the COMET-QE metric *)

(** C9. When the metric selected is the one registered as ["comet_qe"],
    the test on the metric name fails, and the configuration of the metric
    is the default one: batch size 64 and no float16, whatever
    [--batch-size] and [--fp16] are. *)
Theorem C9_comet_qe_gets_default_config {F}
    (load_model : string → result (MetricCOMETQE.Scorer F))
    (to_cuda to_half : MetricCOMETQE.Scorer F → MetricCOMETQE.Scorer F)
    (cuda_is_available : bool) (args : Args.Namespace) :
  Args.metric args = MetricCOMETQE.registered_name →
  Decode.metric_cfg_args args = None
  ∧ metric_Config
      (MetricCOMETQE_type load_model to_cuda to_half cuda_is_available)
      (Decode.metric_cfg_args args)
    = Ok MetricCOMETQE.Config_default
  ∧ MetricCOMETQE.batch_size MetricCOMETQE.Config_default = 64
  ∧ MetricCOMETQE.float16 MetricCOMETQE.Config_default = false.
Proof.
  intros Hm. unfold Decode.metric_cfg_args. rewrite Hm. done.
Qed.

Lemma C9_witness :
  let args :=
    {| Args.hypotheses := "hyps.txt";
       Args.source := Some "src.txt";
       Args.references := None;
       Args.num_candidates := 3;
       Args.num_references := None;
       Args.decoder := "mbr";
       Args.metric := "comet_qe";
       Args.nbest := 1;
       Args.quiet := false;
       Args.report := "rounded_outline";
       Args.width := 1;
       Args.batch_size := 8;
       Args.fp16 := true |} in
  Decode.metric_cfg_args args = None
  ∧ metric_Config
      (MetricCOMETQE_type (F:=Q) (fun _ => Raise OSError) id id false)
      (Decode.metric_cfg_args args)
    = Ok MetricCOMETQE.Config_default
  ∧ MetricCOMETQE.batch_size MetricCOMETQE.Config_default = 64
  ∧ MetricCOMETQE.float16 MetricCOMETQE.Config_default = false.
Proof.
  intros args.
  apply (C9_comet_qe_gets_default_config (F:=Q) (fun _ => Raise OSError)
           id id false args).
  reflexivity.
Defined.

Section CometQEFacts.
Context {F : Type}.
Variable self : MetricCOMETQE.t F.

Lemma reshape_Ok (a b : list F) (n : nat) :
  MetricCOMETQE.reshape a n = Ok b → b = a ∧ length a = n.
Proof.
  unfold MetricCOMETQE.reshape. case_decide; [|done]. by intros [= <-].
Qed.

(** A batch that is returned has one score per hypothesis. *)
Lemma scores_length (hypotheses : list string) (source : string)
    (a : list F) :
  MetricCOMETQE.scores self hypotheses source = Ok a →
  length a = length hypotheses.
Proof.
  unfold MetricCOMETQE.scores.
  destruct (MetricCOMETQE.predict _ _ _ _) as [out|e]; [|done].
  rewrite bind_Ok. by intros [-> ?]%reshape_Ok.
Qed.

(** When the model scores each sample on its own, in the order of the
    data, the batch is the list of these scores. *)
Lemma scores_pointwise (f : MetricCOMETQE.Sample → F)
    (hypotheses : list string) (source : string) :
  (∀ data, MetricCOMETQE.predict (MetricCOMETQE.scorer self) data
             (MetricCOMETQE.batch_size (MetricCOMETQE.cfg self)) 1
           = Ok (f <$> data)) →
  MetricCOMETQE.scores self hypotheses source
  = Ok ((fun h => f (MetricCOMETQE.mkSample source h)) <$> hypotheses).
Proof.
  intros Hmodel. unfold MetricCOMETQE.scores. rewrite Hmodel, bind_Ok.
  unfold MetricCOMETQE.reshape. rewrite !length_fmap.
  case_decide; [|done]. by rewrite <- list_fmap_compose.
Qed.
End CometQEFacts.

(** C3. Whatever the model returns, a batch that [scores] returns has as
    many scores as there are hypotheses. With a model that scores each
    sample on its own and in the order of the data, [scores] returns for
    every list of hypotheses and every source, and the score at index [i]
    is the score that the model gives the sample made of the source and of
    hypothesis [i], which is also what [score] returns for that hypothesis
    and the source. *)
Theorem C3_scores_aligned_with_hypotheses {F} (self : MetricCOMETQE.t F)
    (f : MetricCOMETQE.Sample → F)
    (hypotheses : list string) (source : string) :
  (∀ a, MetricCOMETQE.scores self hypotheses source = Ok a →
        length a = length hypotheses)
  ∧ ((∀ data, MetricCOMETQE.predict (MetricCOMETQE.scorer self) data
                (MetricCOMETQE.batch_size (MetricCOMETQE.cfg self)) 1
              = Ok (f <$> data)) →
     ∃ a, MetricCOMETQE.scores self hypotheses source = Ok a
          ∧ length a = length hypotheses
          ∧ ∀ (i : nat) (h : string), hypotheses !! i = Some h →
              a !! i = Some (f (MetricCOMETQE.mkSample source h))
              ∧ MetricCOMETQE.score self h source
                = Ok (f (MetricCOMETQE.mkSample source h))).
Proof.
  split; [intros a; apply scores_length|].
  intros Hmodel. eexists. split; [by apply scores_pointwise|].
  split; [by rewrite length_fmap|].
  intros i h Hh. split.
  - by rewrite list_lookup_fmap, Hh.
  - unfold MetricCOMETQE.score.
    by rewrite (scores_pointwise self f [h] source Hmodel).
Qed.

Lemma C3_witness :
  let f := fun d : MetricCOMETQE.Sample =>
             if String.prefix (MetricCOMETQE.src d) (MetricCOMETQE.mt d)
             then 1%Q else 0%Q in
  let model := MetricCOMETQE.mkScorer (fun data _ _ => Ok (f <$> data)) in
  let self := MetricCOMETQE.mkMetric MetricCOMETQE.Config_default model in
  ∃ a, MetricCOMETQE.scores self ["x y"; "z"; "x"] "x" = Ok a
       ∧ length a = length ["x y"; "z"; "x"]
       ∧ ∀ (i : nat) (h : string), ["x y"; "z"; "x"] !! i = Some h →
           a !! i = Some (f (MetricCOMETQE.mkSample "x" h))
           ∧ MetricCOMETQE.score self h "x"
             = Ok (f (MetricCOMETQE.mkSample "x" h)).
Proof.
  intros f model self.
  apply (C3_scores_aligned_with_hypotheses self f).
  intros data. reflexivity.
Defined.

(** The batch of the sample model: the source is a prefix of the first and
    of the third hypothesis, not of the second. *)
Example scores_sample :
  MetricCOMETQE.scores
    (MetricCOMETQE.mkMetric MetricCOMETQE.Config_default
       (MetricCOMETQE.mkScorer
          (fun data _ _ =>
             Ok ((fun d =>
                    if String.prefix (MetricCOMETQE.src d)
                         (MetricCOMETQE.mt d)
                    then 1%Q else 0%Q) <$> data))))
    ["x y"; "z"; "x"] "x"
  = Ok [1%Q; 0%Q; 1%Q].
Proof. reflexivity. Qed.

(** C4. [score] returns what the batched call on the one hypothesis
    returns, reduced to its single element: the batch, when it is
    returned, has exactly one element, and [score] raises what the batched
    call raises. *)
Theorem C4_score_is_singleton_batch {F} (self : MetricCOMETQE.t F)
    (hypothesis source : string) :
  MetricCOMETQE.score self hypothesis source
  = MetricCOMETQE.score_of_singleton_batch self hypothesis source
  ∧ match MetricCOMETQE.scores self [hypothesis] source with
    | Ok a =>
        ∃ x, a = [x] ∧ MetricCOMETQE.score self hypothesis source = Ok x
    | Raise e => MetricCOMETQE.score self hypothesis source = Raise e
    end.
Proof.
  unfold MetricCOMETQE.score, MetricCOMETQE.score_of_singleton_batch.
  destruct (MetricCOMETQE.scores self [hypothesis] source) as [a|e] eqn:Hs;
    [|done].
  apply scores_length in Hs. destruct a as [|x [|y a]]; try done.
  split; [done|]. by exists x.
Qed.

(** * Further properties of the command line *)

(** ** Loops that stop, loops that complete *)

Section StepsMore.
Context {F : Type}.
Variable args : Args.Namespace.
Variable d : Decoder F.
Variable sources : option (list string).
Variable hypotheses references : list string.

Local Abbreviation one_call := (call_at args d sources hypotheses references).
Local Abbreviation one_step := (step args d sources hypotheses references).
Local Abbreviation all_steps := (steps args d sources hypotheses references).
Local Abbreviation one_lines :=
  (lines_at args d sources hypotheses references).
Local Abbreviation goes_through :=
  (turn_ok args d sources hypotheses references).

Lemma steps_all_ok (l : list Z) :
  Forall goes_through l → eff_result (all_steps l) = Ok tt.
Proof.
  induction 1 as [|i l (c & o & Hc & Ha) _ IH]; cbn [steps]; [done|].
  unfold step. by rewrite Hc, Ha.
Qed.

Lemma steps_Raise (l : list Z) (e : exn) :
  eff_result (all_steps l) = Raise e →
  ∃ l1 i l2,
    l = l1 ++ i :: l2
    ∧ Forall goes_through l1
    ∧ eff_lines (all_steps l) = concat (one_lines <$> l1)
    ∧ ((one_call i = Raise e
        ∧ length (eff_calls (all_steps l)) = length l1)
       ∨ (∃ c, one_call i = Ok c ∧ answer d c = Raise e
               ∧ length (eff_calls (all_steps l)) = S (length l1)
               ∧ last (eff_calls (all_steps l)) = Some c)).
Proof.
  induction l as [|i l IH]; cbn [steps]; [done|].
  destruct (step_cases args d sources hypotheses references i)
    as [(x & Hc & Hstep)|[(c & x & Hc & Ha & Hstep)|(c & o & Hc & Ha & Hstep)]];
    rewrite Hstep; cbn.
  - intros [= ->]. exists [], i, l. split_and!; [done..|]. by left.
  - intros [= ->]. exists [], i, l. split_and!; [done..|].
    right. by exists c.
  - intros (l1 & j & l2 & -> & Hok & Hlines & Hlast)%IH.
    exists (i :: l1), j, l2. split_and!.
    + done.
    + constructor; [by exists c, o|done].
    + cbn. rewrite Hlines. unfold lines_at at 2. by rewrite Hc, Ha.
    + cbn. destruct Hlast as [[? ->]|(c' & ? & ? & Hlen & Hl)]; [by left|].
      right. exists c'. split_and!; [done..|by rewrite Hlen|].
      rewrite last_cons, Hl. done.
Qed.

Lemma steps_outs (l : list Z) :
  ∃ outs : list (Output F),
    eff_lines (all_steps l) = concat (sentence <$> outs)
    ∧ Forall2 (fun c o => answer d c = Ok o)
        (take (length outs) (eff_calls (all_steps l))) outs
    ∧ match eff_result (all_steps l) with
      | Ok _ =>
          length outs = length (eff_calls (all_steps l))
          ∧ length (eff_calls (all_steps l)) = length l
      | Raise _ =>
          (length (eff_calls (all_steps l)) ≤ S (length outs))%nat
          ∧ (length outs < length l)%nat
      end.
Proof.
  induction l as [|i l IH]; cbn [steps].
  - exists []. cbn. split_and!; [done|constructor|done..].
  - destruct (step_cases args d sources hypotheses references i)
      as [(x & Hc & Hstep)|[(c & x & Hc & Ha & Hstep)
        |(c & o & Hc & Ha & Hstep)]];
      rewrite Hstep; cbn.
    + exists []. cbn. split_and!; [done|constructor|lia..].
    + exists []. cbn. split_and!; [done|constructor|lia..].
    + destruct IH as (outs & Hlines & Hall & Hres).
      exists (o :: outs). cbn. split_and!.
      * by rewrite Hlines.
      * by constructor.
      * destruct (eff_result (all_steps l)); lia.
Qed.
End StepsMore.

Lemma py_range_split (n : Z) (l1 l2 : list Z) (i : Z) :
  py_range n = l1 ++ i :: l2 →
  l1 = py_range (Z.of_nat (length l1))
  ∧ i = Z.of_nat (length l1) ∧ i < n.
Proof.
  intros Hsplit.
  assert (py_range n !! length l1 = Some i) as Hi.
  { rewrite Hsplit. by rewrite list_lookup_middle. }
  apply py_range_lookup in Hi as [-> Hlt]. split; [|done].
  apply list_eq. intros j.
  destruct (decide (j < length l1)%nat) as [Hj|Hj].
  - assert (py_range n !! j = Some (Z.of_nat j)) as Hn
      by (apply py_range_lookup; lia).
    rewrite Hsplit, lookup_app_l in Hn by done. rewrite Hn.
    symmetry. apply py_range_lookup. lia.
  - rewrite !lookup_ge_None_2; [done| |lia].
    rewrite py_range_length. lia.
Qed.

(** ** The set-up *)

Section SetupMore.
Context {F Metric : Type}.
Variable env : Decode.Env F Metric.
Variable args : Args.Namespace.

Lemma inputs_readable_setup sources hyps refs :
  inputs_readable env args sources hyps refs →
  Decode.setup env args =
  (metric_type ← Decode.get_metric env (Args.metric args);
   metric_cfg ← metric_Config metric_type (Decode.metric_cfg_args args);
   metric ← metric_new metric_type metric_cfg;
   decoder_type ← Decode.get_decoder env (Args.decoder args);
   decoder_cfg ← decoder_Config decoder_type;
   decoder ← decoder_new decoder_type decoder_cfg metric;
   num_sents ← py_floordiv (Z.of_nat (length hyps))
                           (Args.num_candidates args);
   if num_sents * Args.num_candidates args =? Z.of_nat (length hyps)
   then Ok (Decode.mkSetup sources hyps refs decoder num_sents)
   else Raise AssertionError).
Proof.
  intros (Hsrc & Hhyp & Href). unfold Decode.setup, Decode.readlines.
  rewrite Hhyp.
  destruct (Args.source args) as [p|].
  - destruct Hsrc as (ss & -> & ->).
    destruct (Args.references args) as [q|].
    + by rewrite Href.
    + by subst refs.
  - subst sources. destruct (Args.references args) as [q|].
    + by rewrite Href.
    + by subst refs.
Qed.

Lemma built_setup sources hyps refs d :
  inputs_readable env args sources hyps refs →
  decoder_built env args d →
  Decode.setup env args =
  (num_sents ← py_floordiv (Z.of_nat (length hyps))
                           (Args.num_candidates args);
   if num_sents * Args.num_candidates args =? Z.of_nat (length hyps)
   then Ok (Decode.mkSetup sources hyps refs d num_sents)
   else Raise AssertionError).
Proof.
  intros Hin (mt & mc & m & dt & dc & Hmt & Hmc & Hm & Hdt & Hdc & Hd).
  rewrite (inputs_readable_setup _ _ _ Hin).
  rewrite Hmt, bind_Ok, Hmc, bind_Ok, Hm, bind_Ok, Hdt, bind_Ok.
  by rewrite Hdc, bind_Ok, Hd, bind_Ok.
Qed.
End SetupMore.

(** X1. When the files can be read and the metric and the decoder are
    built, the set-up raises [ZeroDivisionError] for zero candidates,
    [AssertionError] when the number of candidates does not divide the
    number of lines, and succeeds otherwise, with the quotient as number of
    sentences. *)
Theorem setup_outcome {F Metric} (env : Decode.Env F Metric)
    (args : Args.Namespace) (sources : option (list string))
    (hyps refs : list string) (d : Decoder F) :
  inputs_readable env args sources hyps refs →
  decoder_built env args d →
  let nc := Args.num_candidates args in
  let len := Z.of_nat (length hyps) in
  (nc = 0 → Decode.setup env args = Raise ZeroDivisionError)
  ∧ (nc ≠ 0 → ¬ (nc | len) → Decode.setup env args = Raise AssertionError)
  ∧ (nc ≠ 0 → (nc | len) →
     Decode.setup env args = Ok (Decode.mkSetup sources hyps refs d (len / nc))).
Proof.
  intros Hin Hd nc len. rewrite (built_setup env args _ _ _ _ Hin Hd).
  fold nc len. unfold py_floordiv. split_and!.
  - intros ->. done.
  - intros Hnz Hndiv. destruct (Z.eqb_spec nc 0); [done|]. rewrite bind_Ok.
    destruct (Z.eqb_spec (len / nc * nc) len) as [Heq|?]; [|done].
    destruct Hndiv. exists (len / nc). lia.
  - intros Hnz [q Hq]. destruct (Z.eqb_spec nc 0); [done|]. rewrite bind_Ok.
    destruct (Z.eqb_spec (len / nc * nc) len) as [?|Hne]; [done|].
    destruct Hne. rewrite Hq, Z.div_mul by done. done.
Qed.

Lemma setup_outcome_witness :
  let env := Sample.env {[ "hyps.txt" := Sample.six_lines ]} in
  Decode.setup env (Sample.args "hyps.txt" None None 0 None "exact" 1)
  = Raise ZeroDivisionError.
Proof.
  intros env.
  pose (args := Sample.args "hyps.txt" None None 0 None "exact" 1).
  destruct (setup_outcome env args None Sample.six_lines Sample.six_lines
              (DecoderReferenceBased
                 (DecoderSpec.decode_reference_based Sample.Qltb Sample.Qmean
                    (fun h r _ => Ok (Sample.exact_match h r)))))
    as (Hzero & _).
  - repeat split.
  - exists (Sample.metric_type
              (DecoderSpec.ReferenceBased
                 (fun h r _ => Ok (Sample.exact_match h r)))), tt,
      (DecoderSpec.ReferenceBased (fun h r _ => Ok (Sample.exact_match h r))),
      (DecoderSpec.decoder_type Sample.Qltb Sample.Qmean), tt.
    repeat split.
  - apply Hzero. reflexivity.
Defined.

Lemma sample_rb_built files hyp src refs nc nr nbest :
  decoder_built (Sample.env files)
    (Sample.args hyp src refs nc nr "exact" nbest) SampleRun.rb_decoder.
Proof.
  exists (Sample.metric_type SampleRun.rb_metric), tt, SampleRun.rb_metric,
    (DecoderSpec.decoder_type Sample.Qltb Sample.Qmean), tt.
  repeat split.
Qed.

Lemma sample_qe_built files hyp src refs nc nr nbest :
  decoder_built (Sample.env files)
    (Sample.args hyp src refs nc nr "exact_qe" nbest) SampleRun.qe_decoder.
Proof.
  exists (Sample.metric_type SampleRun.qe_metric), tt, SampleRun.qe_metric,
    (DecoderSpec.decoder_type Sample.Qltb Sample.Qmean), tt.
  repeat split.
Qed.

(** X2. When one of the files named on the command line cannot be read,
    the run ends with [OSError] whatever the registries hold and whatever
    the number of candidates is: nothing is decoded, nothing is printed. *)
Theorem unreadable_file_is_OSError {F Metric} (env : Decode.Env F Metric)
    (args : Args.Namespace) :
  (∃ p, Args.source args = Some p ∧ Decode.files env !! p = None)
  ∨ Decode.files env !! Args.hypotheses args = None
  ∨ (∃ p, Args.references args = Some p ∧ Decode.files env !! p = None) →
  Decode.cli_main env args = (World_empty, Raise OSError).
Proof.
  intros Hmiss. apply cli_main_setup_fails.
  unfold Decode.setup, Decode.readlines.
  destruct (Args.source args) as [p|] eqn:Hp.
  - destruct (Decode.files env !! p) as [ss|] eqn:Hss; [|done]. cbn.
    destruct (Decode.files env !! Args.hypotheses args) as [hs|] eqn:Hh;
      [|done]. cbn.
    destruct Hmiss as [(q & [= <-] & Hq)|[?|(q & -> & ->)]];
      [congruence..|done].
  - cbn.
    destruct (Decode.files env !! Args.hypotheses args) as [hs|] eqn:Hh;
      [|done]. cbn.
    destruct Hmiss as [(q & ? & Hq)|[?|(q & -> & ->)]];
      [congruence..|done].
Qed.

Lemma unreadable_file_is_OSError_witness :
  Decode.cli_main (Sample.env {[ "hyps.txt" := Sample.six_lines ]})
    (Sample.args "hyps.txt" None (Some "refs.txt") 0 None "unknown" 1)
  = (World_empty, Raise OSError).
Proof.
  apply unreadable_file_is_OSError.
  right; right. exists "refs.txt". split; reflexivity.
Defined.

(** X3. The metric and the decoder are built before the block size is
    looked at: when the files can be read and the metric is not in the
    registry, or its configuration or its construction raises, the run ends
    with that exception, also when the number of candidates is zero or does
    not divide the number of lines. *)
Theorem metric_failure_comes_first {F Metric} (env : Decode.Env F Metric)
    (args : Args.Namespace) (sources : option (list string))
    (hyps refs : list string) (e : exn) :
  inputs_readable env args sources hyps refs →
  Decode.get_metric env (Args.metric args) = Raise e
  ∨ (∃ mt, Decode.get_metric env (Args.metric args) = Ok mt
           ∧ (metric_Config mt (Decode.metric_cfg_args args) = Raise e
              ∨ ∃ mc, metric_Config mt (Decode.metric_cfg_args args) = Ok mc
                      ∧ metric_new mt mc = Raise e)) →
  Decode.cli_main env args = (World_empty, Raise e).
Proof.
  intros Hin Hfail. apply cli_main_setup_fails.
  rewrite (inputs_readable_setup env args _ _ _ Hin).
  destruct Hfail as [->|(mt & -> & [Hc|(mc & Hc & Hn)])]; [done| |].
  - by rewrite bind_Ok, Hc.
  - by rewrite bind_Ok, Hc, bind_Ok, Hn.
Qed.

Lemma metric_failure_comes_first_witness :
  Decode.cli_main (Sample.env {[ "hyps.txt" := Sample.seven_lines ]})
    (Sample.args "hyps.txt" None None 3 None "unknown" 1)
  = (World_empty, Raise KeyError).
Proof.
  apply (metric_failure_comes_first _ _ None Sample.seven_lines
           Sample.seven_lines).
  - repeat split.
  - left. reflexivity.
Defined.

(** X4. A negative number of candidates that divides the number of lines
    passes the assertion and gives no sentence at all: there is no call of
    [decode] and no sentence is printed, and the loop raises nothing. The
    run ends normally with [--quiet]; without it, it ends as the
    computation of the statistics does, no call having been timed. *)
Theorem negative_num_candidates_decodes_nothing {F Metric}
    (env : Decode.Env F Metric) (args : Args.Namespace) (s : Decode.Setup) :
  Decode.setup env args = Ok s →
  Args.num_candidates args < 0 →
  Decode.the_num_sents s ≤ 0
  ∧ calls (fst (Decode.cli_main env args)) = []
  ∧ output (fst (Decode.cli_main env args)) = []
  ∧ snd (Decode.cli_main env args)
    = if Args.quiet args then Ok tt
      else Decode.statistics env [] (Decode.the_num_sents s).
Proof.
  intros Hs Hneg.
  destruct (setup_Ok env args s Hs) as (_ & _ & _ & _ & _ & Hmul).
  assert (Decode.the_num_sents s ≤ 0) as Hn by nia.
  split; [done|]. rewrite cli_main_eq, Hs. cbn zeta.
  rewrite py_range_nonpos by done. cbn.
  destruct (Args.quiet args); [done|].
  by destruct (Decode.statistics env [] _) as [[]|x].
Qed.

Lemma negative_num_candidates_decodes_nothing_witness :
  let env := Sample.env {[ "hyps.txt" := Sample.six_lines ]} in
  let args :=
    SampleRun.quiet (Sample.args "hyps.txt" None None (-3) None "exact" 1) in
  -2 ≤ 0
  ∧ calls (fst (Decode.cli_main env args)) = []
  ∧ output (fst (Decode.cli_main env args)) = []
  ∧ snd (Decode.cli_main env args) = Ok tt.
Proof.
  intros env args.
  apply (negative_num_candidates_decodes_nothing env args
           (Decode.mkSetup None Sample.six_lines Sample.six_lines
              SampleRun.rb_decoder (-2))).
  - reflexivity.
  - reflexivity.
Defined.

(** Without [--quiet], on the sample timer, the same run ends with the
    exception of the statistics. *)
Example negative_num_candidates_not_quiet :
  Decode.cli_main (Sample.env {[ "hyps.txt" := Sample.six_lines ]})
    (Sample.args "hyps.txt" None None (-3) None "exact" 1)
  = (World_empty, Raise RuntimeError).
Proof. vm_compute. reflexivity. Qed.

(** X5. The statistics table is printed once, for the number of sentences,
    when the run completes and [--quiet] is not given; it is not printed
    with [--quiet], nor when the run ends with an exception. *)
Theorem report_printed_after_completion {F Metric}
    (env : Decode.Env F Metric) (args : Args.Namespace)
    (w : World) (r : result unit) (lines : list string) :
  Decode.files env !! Args.hypotheses args = Some lines →
  Decode.cli_main env args = (w, r) →
  reports w =
  match r with
  | Ok _ =>
      if Args.quiet args then []
      else [Z.of_nat (length lines) / Args.num_candidates args]
  | Raise _ => []
  end.
Proof.
  intros Hfile Hrun.
  destruct (Decode.setup env args) as [s|e] eqn:Hs.
  - destruct (setup_Ok env args s Hs) as (Hf & _ & _ & _ & Hn & _).
    rewrite Hfile in Hf. injection Hf as ->.
    destruct (cli_main_after_setup env args s w r Hs Hrun) as (_ & _ & Hr).
    destruct (eff_result _) as [[]|x].
    + destruct (Args.quiet args).
      * by destruct Hr as [-> ->].
      * destruct (Decode.statistics env _ _) as [[]|x];
          destruct Hr as [-> ->]; by rewrite ?Hn.
    + by destruct Hr as [-> ->].
  - rewrite cli_main_eq, Hs in Hrun. by injection Hrun as <- <-.
Qed.

Lemma report_printed_after_completion_witness :
  let env := Sample.env {[ "hyps.txt" := Sample.six_lines ]} in
  let args := Sample.args "hyps.txt" None None 3 None "exact" 1 in
  reports (fst (Decode.cli_main env args)) = [2].
Proof.
  intros env args.
  apply (report_printed_after_completion env args
           (fst (Decode.cli_main env args)) (Ok tt) Sample.six_lines).
  - reflexivity.
  - vm_compute. reflexivity.
Defined.

(** ** What a run prints and how it ends *)

(** X6. The sentence lines printed by a run are the sentences of the
    outputs that the calls of [decode] returned, call after call; only the
    last call may have printed nothing, when it raised. A run that
    completes has made one call per sentence, and each has printed its
    sentences. A run that ends with an exception has either stopped in the
    loop, before the last sentence was printed, or gone through the loop
    and failed in the computation of the statistics. *)
Theorem printed_lines_are_decode_outputs {F Metric}
    (env : Decode.Env F Metric) (args : Args.Namespace) (s : Decode.Setup)
    (w : World) (r : result unit) :
  Decode.setup env args = Ok s →
  Decode.cli_main env args = (w, r) →
  ∃ outs : list (Output F),
    output w = concat (sentence <$> outs)
    ∧ Forall2 (fun c o => answer (Decode.the_decoder s) c = Ok o)
        (take (length outs) (calls w)) outs
    ∧ (length (calls w) ≤ S (length outs))%nat
    ∧ match r with
      | Ok _ =>
          length outs = length (calls w)
          ∧ length (calls w) = Z.to_nat (Decode.the_num_sents s)
      | Raise e =>
          (length outs < Z.to_nat (Decode.the_num_sents s))%nat
          ∨ (length outs = length (calls w)
             ∧ length (calls w) = Z.to_nat (Decode.the_num_sents s)
             ∧ Args.quiet args = false
             ∧ Decode.statistics env (calls w) (Decode.the_num_sents s)
               = Raise e)
      end.
Proof.
  intros Hs Hrun.
  destruct (cli_main_after_setup env args s w r Hs Hrun)
    as (Hcalls & Hout & Hr).
  destruct (steps_outs args (Decode.the_decoder s) (Decode.the_sources s)
              (Decode.the_hypotheses s) (Decode.the_references s)
              (py_range (Decode.the_num_sents s)))
    as (outs & Hlines & Hall & Hres).
  rewrite py_range_length in Hres. rewrite <- Hcalls in *.
  exists outs. rewrite Hout. split; [done|]. split; [done|].
  destruct (eff_result _) as [[]|x].
  - destruct Hres as [Hlo Hlc]. split; [lia|].
    destruct (Args.quiet args) eqn:Hq.
    + by destruct Hr as [-> _].
    + destruct (Decode.statistics env _ _) as [[]|x] eqn:Hst;
        destruct Hr as [-> _]; [done|]. by right.
  - destruct Hres as [Hlc Hlo]. split; [done|].
    destruct Hr as [-> _]. by left.
Qed.

Lemma printed_lines_are_decode_outputs_witness :
  let env := Sample.env {[ "hyps.txt" := Sample.six_lines ]} in
  let args := Sample.args "hyps.txt" None None 3 None "exact" 1 in
  ∃ outs : list (Output Q),
    ["a b c"; "y"] = concat (sentence <$> outs)
    ∧ length outs = 2%nat.
Proof.
  intros env args.
  destruct (printed_lines_are_decode_outputs env args
              (Decode.mkSetup None Sample.six_lines Sample.six_lines
                 SampleRun.rb_decoder 2)
              (fst (Decode.cli_main env args)) (Ok tt))
    as (outs & Hout & _ & _ & Hlen & _).
  - reflexivity.
  - vm_compute. reflexivity.
  - exists outs. split; [exact Hout|exact Hlen].
Defined.

Lemma py_getitem_Ok {A} (l : list A) (i : nat) (x : A) :
  py_getitem l (Z.of_nat i) = Ok x ↔ l !! i = Some x.
Proof.
  unfold py_getitem.
  destruct (Z.ltb_spec (Z.of_nat i) 0) as [?|_]; [lia|].
  destruct (Z.ltb_spec (Z.of_nat i) 0) as [?|_]; [lia|].
  rewrite Nat2Z.id. destruct (l !! i); split; congruence.
Qed.

Lemma py_getitem_Raise {A} (l : list A) (i : nat) (e : exn) :
  py_getitem l (Z.of_nat i) = Raise e →
  e = IndexError ∧ (length l ≤ i)%nat.
Proof.
  unfold py_getitem.
  destruct (Z.ltb_spec (Z.of_nat i) 0) as [?|_]; [lia|].
  destruct (Z.ltb_spec (Z.of_nat i) 0) as [?|_]; [lia|].
  rewrite Nat2Z.id. destruct (l !! i) eqn:Hl; [done|].
  intros [= <-]. split; [done|]. by apply lookup_ge_None.
Qed.

Lemma call_at_Raise {F} args (d : Decoder F) sources hyps refs (i : nat) e :
  call_at args d sources hyps refs (Z.of_nat i) = Raise e →
  (sources = None ∧ e = TypeError ∧ ∃ decode, d = DecoderReferenceless decode)
  ∨ (∃ ss, sources = Some ss ∧ (length ss ≤ i)%nat ∧ e = IndexError).
Proof.
  unfold call_at. destruct d as [decode|decode].
  - destruct sources as [ss|].
    + destruct (py_getitem ss (Z.of_nat i)) as [x|e'] eqn:Hg; [done|].
      intros [= ->]. apply py_getitem_Raise in Hg as [-> ?].
      right. by exists ss.
    + intros [= <-]. left. split_and!; [done..|]. by exists decode.
  - destruct sources as [ss|]; [|done].
    destruct (py_getitem ss (Z.of_nat i)) as [x|e'] eqn:Hg; [done|].
    intros [= ->]. apply py_getitem_Raise in Hg as [-> ?].
    right. by exists ss.
Qed.

(** X7. Once the set-up has succeeded, a run ends with an exception for
    one of three reasons only. Either its last call of [decode] raised, and
    the run ends with that exception; or the source of the next sentence
    could not be fetched: [TypeError] when a reference-free decoder has no
    source file, [IndexError] when the source file has no line left; or
    every sentence was decoded and, [--quiet] not being given, the
    computation of the statistics raised. *)
Theorem run_failure_causes {F Metric}
    (env : Decode.Env F Metric) (args : Args.Namespace) (s : Decode.Setup)
    (w : World) (e : exn) :
  Decode.setup env args = Ok s →
  Decode.cli_main env args = (w, Raise e) →
  (∃ c, last (calls w) = Some c
        ∧ answer (Decode.the_decoder s) c = Raise e)
  ∨ (Z.of_nat (length (calls w)) < Decode.the_num_sents s
     ∧ ((Decode.the_sources s = None ∧ e = TypeError
         ∧ ∃ decode, Decode.the_decoder s = DecoderReferenceless decode)
        ∨ (∃ ss, Decode.the_sources s = Some ss
                 ∧ (length ss ≤ length (calls w))%nat
                 ∧ e = IndexError)))
  ∨ (Args.quiet args = false
     ∧ length (calls w) = Z.to_nat (Decode.the_num_sents s)
     ∧ Decode.statistics env (calls w) (Decode.the_num_sents s) = Raise e).
Proof.
  intros Hs Hrun.
  destruct (cli_main_after_setup env args s w (Raise e) Hs Hrun)
    as (Hcalls & _ & Hr).
  rewrite Hcalls.
  destruct (eff_result _) as [[]|x] eqn:Hres.
  - right; right. destruct (Args.quiet args); [by destruct Hr|].
    destruct (Decode.statistics env _ _) as [[]|x] eqn:Hst;
      destruct Hr as [Hr _]; [done|]. injection Hr as <-.
    apply steps_Ok in Hres as (Hlen & _).
    by rewrite Hlen, py_range_length.
  - destruct Hr as [[= <-] _].
    apply steps_Raise in Hres
      as (l1 & i & l2 & Hsplit & _ & _ & [[Hc Hlen]|(c & _ & Ha & _ & Hl)]).
    + right; left. apply py_range_split in Hsplit as (_ & -> & Hlt).
      rewrite Hlen. split; [done|]. by apply call_at_Raise in Hc.
    + left. by exists c.
Qed.

Lemma run_failure_causes_witness :
  let env := Sample.env {[ "hyps.txt" := Sample.six_lines;
                           "src.txt" := SampleRun.one_line ]} in
  let args :=
    Sample.args "hyps.txt" (Some "src.txt") None 3 None "exact_qe" 1 in
  let w := fst (Decode.cli_main env args) in
  (∃ c, last (calls w) = Some c
        ∧ answer SampleRun.qe_decoder c = Raise IndexError)
  ∨ (Z.of_nat (length (calls w)) < 2
     ∧ ((Some SampleRun.one_line = None ∧ IndexError = TypeError
         ∧ ∃ decode, SampleRun.qe_decoder = DecoderReferenceless decode)
        ∨ (∃ ss, Some SampleRun.one_line = Some ss
                 ∧ (length ss ≤ length (calls w))%nat
                 ∧ IndexError = IndexError)))
  ∨ (Args.quiet args = false
     ∧ length (calls w) = Z.to_nat 2
     ∧ Decode.statistics env (calls w) 2 = Raise IndexError).
Proof.
  intros env args w.
  apply (run_failure_causes env args
           (Decode.mkSetup (Some SampleRun.one_line) Sample.six_lines
              Sample.six_lines SampleRun.qe_decoder 2)
           (fst (Decode.cli_main env args)) IndexError).
  - reflexivity.
  - vm_compute. reflexivity.
Defined.

(** The third reason on the sample timer: no sentence to decode, no
    [--quiet]. *)
Example statistics_failure_sample :
  Decode.cli_main (Sample.env {[ "hyps.txt" := [] ]})
    (Sample.args "hyps.txt" None None 3 None "exact" 1)
  = (World_empty, Raise RuntimeError).
Proof. vm_compute. reflexivity. Qed.

(** ** The arguments of the calls *)

Lemma call_at_src {F} args (d : Decoder F) sources hyps refs (i : nat) c :
  call_at args d sources hyps refs (Z.of_nat i) = Ok c →
  match sources with
  | Some ss => ∃ line, ss !! i = Some line ∧ call_src c = Some (strip line)
  | None => call_src c = None
  end.
Proof.
  unfold call_at. destruct d as [decode|decode].
  - destruct sources as [ss|]; [|done].
    destruct (py_getitem ss (Z.of_nat i)) as [x|e] eqn:Hg; [|done].
    intros [= <-]. apply py_getitem_Ok in Hg. by exists x.
  - destruct sources as [ss|].
    + destruct (py_getitem ss (Z.of_nat i)) as [x|e] eqn:Hg; [|done].
      intros [= <-]. apply py_getitem_Ok in Hg. by exists x.
    + by intros [= <-].
Qed.

(** X8. The call for sentence [i] carries [--nbest] as it is given, and as
    source the line [i] of the source file, stripped; without a source
    file a call carries no source. *)
Theorem source_of_each_call {F Metric}
    (env : Decode.Env F Metric) (args : Args.Namespace)
    (w : World) (r : result unit) (i : nat) (c : Call) :
  Decode.cli_main env args = (w, r) →
  calls w !! i = Some c →
  call_nbest c = Args.nbest args
  ∧ match Args.source args with
    | Some path =>
        ∃ ss line, Decode.files env !! path = Some ss
                   ∧ ss !! i = Some line
                   ∧ call_src c = Some (strip line)
    | None => call_src c = None
    end.
Proof.
  intros Hrun Hcall.
  destruct (cli_main_calls env args w r i c Hrun Hcall) as (s & Hs & _ & Hc).
  split; [by eapply call_at_nbest|].
  destruct (setup_Ok env args s Hs) as (_ & Hsrc & _).
  apply call_at_src in Hc.
  destruct (Args.source args) as [path|].
  - destruct Hsrc as (ss & Hf & Hss). rewrite Hss in Hc.
    destruct Hc as (line & ? & ?). by exists ss, line.
  - by rewrite Hsrc in Hc.
Qed.

Lemma source_of_each_call_witness :
  let env := Sample.env {[ "hyps.txt" := Sample.six_lines;
                           "src.txt" := SampleRun.two_lines ]} in
  let args :=
    Sample.args "hyps.txt" (Some "src.txt") None 3 None "exact_qe" 1 in
  call_nbest (CallReferenceless ["x"; "y"; "y"] "y" 1) = 1
  ∧ ∃ ss line, Decode.files env !! "src.txt" = Some ss
               ∧ ss !! 1%nat = Some line
               ∧ call_src (CallReferenceless ["x"; "y"; "y"] "y" 1)
                 = Some (strip line).
Proof.
  intros env args.
  apply (source_of_each_call env args (fst (Decode.cli_main env args))
           (snd (Decode.cli_main env args)) 1
           (CallReferenceless ["x"; "y"; "y"] "y" 1)).
  - vm_compute. reflexivity.
  - vm_compute. reflexivity.
Defined.

(** X9. When the source file has fewer lines than there are sentences and
    the decoder raises on none of its calls, the run decodes and prints one
    sentence per source line and then ends with [IndexError]. *)
Theorem short_source_file_is_IndexError {F Metric}
    (env : Decode.Env F Metric) (args : Args.Namespace) (s : Decode.Setup)
    (ss : list string) (w : World) (r : result unit) :
  Decode.setup env args = Ok s →
  Decode.the_sources s = Some ss →
  Z.of_nat (length ss) < Decode.the_num_sents s →
  Decode.cli_main env args = (w, r) →
  (∀ c, c ∈ calls w → ∃ o, answer (Decode.the_decoder s) c = Ok o) →
  r = Raise IndexError ∧ length (calls w) = length ss.
Proof.
  intros Hs Hss Hshort Hrun Htotal. revert Hrun Htotal.
  rewrite cli_main_eq, Hs. cbn zeta.
  destruct (eff_result _) as [[]|x] eqn:Hres.
  - intros _ _. exfalso.
    apply steps_Ok in Hres as (_ & _ & Hall).
    destruct (Hall (length ss) (Z.of_nat (length ss)))
      as (c & o & _ & Hc & _).
    { apply py_range_lookup. done. }
    apply call_at_src in Hc. rewrite Hss in Hc.
    destruct Hc as (line & Hline%lookup_lt_Some & _). lia.
  - intros [= <- <-]. cbn [calls]. intros Htotal.
    apply steps_Raise in Hres
      as (l1 & i & l2 & Hsplit & Hok & _
          & [[Hc Hlen]|(c & _ & Ha & _ & Hlast)]).
    + apply py_range_split in Hsplit as (Hl1 & -> & Hlt).
      apply call_at_Raise in Hc
        as [(Hnone & _)|(ss' & Hss' & Hle & ->)]; [congruence|].
      rewrite Hss in Hss'. injection Hss' as <-.
      split; [done|]. rewrite Hlen.
      destruct (decide (length l1 = length ss)) as [|Hne]; [done|].
      exfalso. rewrite Forall_forall in Hok.
      destruct (Hok (Z.of_nat (length ss))) as (c & o & Hc & _).
      { rewrite Hl1. apply list_elem_of_lookup. exists (length ss).
        apply py_range_lookup. lia. }
      apply call_at_src in Hc. rewrite Hss in Hc.
      destruct Hc as (line & Hline%lookup_lt_Some & _). lia.
    + destruct (Htotal c) as [o Ho]; [|congruence].
      apply last_Some in Hlast as [l' ->]. set_solver.
Qed.

Lemma short_source_file_is_IndexError_witness :
  let env := Sample.env {[ "hyps.txt" := Sample.six_lines;
                           "src.txt" := SampleRun.one_line ]} in
  let args :=
    Sample.args "hyps.txt" (Some "src.txt") None 3 None "exact_qe" 1 in
  snd (Decode.cli_main env args) = Raise IndexError
  ∧ length (calls (fst (Decode.cli_main env args)))
    = length SampleRun.one_line.
Proof.
  intros env args.
  apply (short_source_file_is_IndexError env args
           (Decode.mkSetup (Some SampleRun.one_line) Sample.six_lines
              Sample.six_lines SampleRun.qe_decoder 2)
           SampleRun.one_line).
  - reflexivity.
  - reflexivity.
  - reflexivity.
  - vm_compute. reflexivity.
  - intros c Hc.
    assert (c = CallReferenceless ["a b c"; "a b d"; "a b c"] "a b c" 1)
      as ->.
    { vm_compute in Hc. by apply list_elem_of_singleton in Hc. }
    eexists. vm_compute. reflexivity.
Defined.

(** X10. With a references file and a positive [--num-references], the
    references of sentence [i] are the lines of the block [i] that the file
    has: the block is cut at the end of the file and is empty beyond it; the
    call is made all the same. *)
Theorem reference_block_is_cut_at_end_of_file {F Metric}
    (env : Decode.Env F Metric) (args : Args.Namespace)
    (path : string) (ref_lines : list string) (nr : Z)
    (w : World) (r : result unit) (i : nat)
    (hyps refs : list string) (src : option string) (n : Z) :
  Args.references args = Some path →
  Args.num_references args = Some nr →
  0 < nr →
  Decode.files env !! path = Some ref_lines →
  Decode.cli_main env args = (w, r) →
  calls w !! i = Some (CallReferenceBased hyps refs src n) →
  refs = strip <$> take (Z.to_nat nr) (drop (i * Z.to_nat nr) ref_lines)
  ∧ length refs = (Z.to_nat nr `min` (length ref_lines - i * Z.to_nat nr))%nat
  ∧ ((length ref_lines ≤ i * Z.to_nat nr)%nat → refs = []).
Proof.
  intros Hrefs Hnr Hpos Hfile Hrun Hcall.
  destruct (cli_main_calls env args w r i _ Hrun Hcall) as (s & Hs & _ & Hc).
  destruct (setup_Ok env args s Hs) as (_ & _ & Hr & _).
  rewrite Hrefs, Hfile in Hr. injection Hr as Hr. rewrite <- Hr in *.
  apply call_at_reference_based in Hc as (_ & -> & _).
  assert (Decode.num_refs args = nr) as ->.
  { unfold Decode.num_refs. rewrite Hnr. cbn.
    destruct (Z.eqb_spec nr 0); [lia|done]. }
  rewrite block_nonneg, Nat2Z.id by lia. split_and!.
  - done.
  - by rewrite length_fmap, length_take, length_drop.
  - intros Hle. by rewrite drop_ge, take_nil.
Qed.

Lemma reference_block_is_cut_at_end_of_file_witness :
  let env := Sample.env {[ "hyps.txt" := Sample.six_lines;
                           "refs.txt" := Sample.three_lines ]} in
  let args :=
    Sample.args "hyps.txt" None (Some "refs.txt") 3 (Some 2) "exact" 1 in
  ["a b c"]
  = strip <$> take (Z.to_nat 2) (drop (1 * Z.to_nat 2) Sample.three_lines)
  ∧ length ["a b c"]
    = (Z.to_nat 2 `min` (length Sample.three_lines - 1 * Z.to_nat 2))%nat
  ∧ ((length Sample.three_lines ≤ 1 * Z.to_nat 2)%nat → ["a b c"] = []).
Proof.
  intros env args.
  apply (reference_block_is_cut_at_end_of_file env args "refs.txt"
           Sample.three_lines 2 (fst (Decode.cli_main env args))
           (snd (Decode.cli_main env args)) 1
           ["x"; "y"; "y"] ["a b c"] None 1).
  - reflexivity.
  - reflexivity.
  - lia.
  - reflexivity.
  - vm_compute. reflexivity.
  - vm_compute. reflexivity.
Defined.

Lemma py_slice_neg_first {A} (l : list A) (b : Z) :
  b < 0 → py_slice l 0 b = take (length l - Z.to_nat (- b)) l.
Proof.
  intros Hb. unfold py_slice, slice_index.
  destruct (Z.ltb_spec 0 0) as [?|_]; [lia|].
  destruct (Z.ltb_spec b 0) as [_|?]; [|lia].
  rewrite Z.min_l by lia. cbn [Z.to_nat drop]. f_equal. lia.
Qed.

Lemma py_slice_neg_later {A} (l : list A) (a b : Z) :
  b < a → a < 0 → py_slice l a b = [].
Proof.
  intros Hba Ha. unfold py_slice, slice_index.
  destruct (Z.ltb_spec a 0) as [_|?]; [|lia].
  destruct (Z.ltb_spec b 0) as [_|?]; [|lia].
  replace (Z.to_nat _) with 0%nat by lia. done.
Qed.

(** X11. With a negative [--num-references] the slices of the references
    have negative bounds: the first sentence gets all the lines of the
    references but the last [- num_references] ones, and every later
    sentence gets no reference at all. *)
Theorem negative_num_references {F Metric}
    (env : Decode.Env F Metric) (args : Args.Namespace) (s : Decode.Setup)
    (nr : Z) (w : World) (r : result unit) (i : nat)
    (hyps refs : list string) (src : option string) (n : Z) :
  Decode.setup env args = Ok s →
  Args.num_references args = Some nr →
  nr < 0 →
  Decode.cli_main env args = (w, r) →
  calls w !! i = Some (CallReferenceBased hyps refs src n) →
  let ref_lines := Decode.the_references s in
  (i = 0%nat →
   refs = strip <$> take (length ref_lines - Z.to_nat (- nr)) ref_lines)
  ∧ ((0 < i)%nat → refs = []).
Proof.
  intros Hs Hnr Hneg Hrun Hcall ref_lines.
  destruct (cli_main_calls env args w r i _ Hrun Hcall)
    as (s' & Hs' & _ & Hc).
  rewrite Hs in Hs'. injection Hs' as <-.
  apply call_at_reference_based in Hc as (_ & -> & _).
  assert (Decode.num_refs args = nr) as ->.
  { unfold Decode.num_refs. rewrite Hnr. cbn.
    destruct (Z.eqb_spec nr 0); [lia|done]. }
  unfold block. split.
  - intros ->. cbn [Z.of_nat]. rewrite Z.mul_0_l, Z.add_0_l, Z.mul_1_l.
    by rewrite py_slice_neg_first.
  - intros Hi. by rewrite py_slice_neg_later by nia.
Qed.

Lemma negative_num_references_witness :
  let env := Sample.env {[ "hyps.txt" := Sample.six_lines ]} in
  let args := Sample.args "hyps.txt" None None 3 (Some (-2)) "exact" 1 in
  calls (fst (Decode.cli_main env args)) !! 1%nat
  = Some (CallReferenceBased ["x"; "y"; "y"] [] None 1)
  ∧ ((1 = 0)%nat →
     [] = strip <$> take (length Sample.six_lines - Z.to_nat (- -2))
                      Sample.six_lines)
  ∧ ((0 < 1)%nat → @nil string = []).
Proof.
  intros env args. split; [vm_compute; reflexivity|].
  apply (negative_num_references env args
           (Decode.mkSetup None Sample.six_lines Sample.six_lines
              SampleRun.rb_decoder 2)
           (-2) (fst (Decode.cli_main env args))
           (snd (Decode.cli_main env args)) 1 ["x"; "y"; "y"] [] None 1).
  - reflexivity.
  - reflexivity.
  - lia.
  - vm_compute. reflexivity.
  - vm_compute. reflexivity.
Defined.

(** ** Stripped lines *)

Lemma lstrip_first (s : string) (c : ascii) :
  first_char (lstrip s) = Some c → is_space c = false.
Proof.
  induction s as [|a s IH]; cbn; [done|].
  destruct (is_space a) eqn:Ha; [done|]. cbn. by intros [= <-].
Qed.

Lemma rstrip_first (s : string) (c : ascii) :
  first_char (rstrip s) = Some c → first_char s = Some c.
Proof.
  destruct s as [|a s]; cbn; [done|].
  destruct (rstrip s); [|done]. by destruct (is_space a).
Qed.

Lemma rstrip_last (s : string) (c : ascii) :
  last_char (rstrip s) = Some c → is_space c = false.
Proof.
  induction s as [|a s IH]; cbn; [done|].
  destruct (rstrip s) as [|b t] eqn:Hr.
  - destruct (is_space a) eqn:Ha; [done|]. cbn. by intros [= <-].
  - cbn [last_char]. exact IH.
Qed.

Lemma strip_trimmed (s : string) : trimmed (strip s).
Proof.
  split; intros c Hc.
  - by eapply lstrip_first, rstrip_first.
  - by eapply rstrip_last.
Qed.

Lemma Forall_trimmed_strip (l : list string) : Forall trimmed (strip <$> l).
Proof. apply Forall_fmap, Forall_true. intros s. apply strip_trimmed. Qed.

(** X12. Every text handed to [decode] has no white space at either end,
    hence no line terminator: the candidates, the references and the
    source. *)
Theorem decode_gets_trimmed_texts {F Metric}
    (env : Decode.Env F Metric) (args : Args.Namespace)
    (w : World) (r : result unit) (c : Call) :
  Decode.cli_main env args = (w, r) →
  c ∈ calls w →
  Forall trimmed (call_hyps c)
  ∧ Forall trimmed (call_refs c)
  ∧ ∀ src, call_src c = Some src → trimmed src.
Proof.
  intros Hrun (i & Hcall)%list_elem_of_lookup.
  destruct (cli_main_calls env args w r i c Hrun Hcall) as (s & _ & _ & Hc).
  pose proof (call_at_hyps _ _ _ _ _ _ _ Hc) as Hh.
  pose proof (call_at_src _ _ _ _ _ _ _ Hc) as Hsrc.
  split_and!.
  - rewrite Hh. apply Forall_trimmed_strip.
  - destruct c as [h x n|h rf x n]; [constructor|].
    apply call_at_reference_based in Hc as (_ & -> & _).
    apply Forall_trimmed_strip.
  - intros src Hsome. destruct (Decode.the_sources s) as [ss|].
    + destruct Hsrc as (line & _ & Heq). rewrite Heq in Hsome.
      injection Hsome as <-. apply strip_trimmed.
    + congruence.
Qed.

Lemma decode_gets_trimmed_texts_witness :
  let env := Sample.env {[ "hyps.txt" := Sample.three_lines ]} in
  let c := CallReferenceBased ["a b c"; "a b d"; "a b c"]
             ["a b c"; "a b d"; "a b c"] None 1 in
  Forall trimmed (call_hyps c)
  ∧ Forall trimmed (call_refs c)
  ∧ ∀ src, call_src c = Some src → trimmed src.
Proof.
  intros env c.
  pose (args := Sample.args "hyps.txt" None None 3 None "exact" 1).
  apply (decode_gets_trimmed_texts env args (fst (Decode.cli_main env args))
           (snd (Decode.cli_main env args)) c).
  - vm_compute. reflexivity.
  - vm_compute. apply list_elem_of_singleton. reflexivity.
Defined.

(** * Further properties of the COMET-QE metric *)

(** X13. The size of what the model returns is checked: when the model
    returns a number of scores that is not the number of hypotheses,
    [scores] raises [ValueError] and returns nothing; so does [score] when
    the model does not return one score for the one hypothesis. An
    exception of the model is raised as it is. *)
Theorem model_output_size_is_checked {F} (self : MetricCOMETQE.t F)
    (hypotheses : list string) (source : string) (out : result (list F)) :
  MetricCOMETQE.predict (MetricCOMETQE.scorer self)
    ((fun hyp => MetricCOMETQE.mkSample source hyp) <$> hypotheses)
    (MetricCOMETQE.batch_size (MetricCOMETQE.cfg self)) 1 = out →
  match out with
  | Ok a =>
      (length a = length hypotheses →
       MetricCOMETQE.scores self hypotheses source = Ok a)
      ∧ (length a ≠ length hypotheses →
         MetricCOMETQE.scores self hypotheses source = Raise ValueError
         ∧ ∀ h, hypotheses = [h] →
             MetricCOMETQE.score self h source = Raise ValueError)
  | Raise e =>
      MetricCOMETQE.scores self hypotheses source = Raise e
      ∧ ∀ h, hypotheses = [h] →
          MetricCOMETQE.score self h source = Raise e
  end.
Proof.
  intros Hout. destruct out as [a|e].
  - assert (MetricCOMETQE.scores self hypotheses source
            = MetricCOMETQE.reshape a (length hypotheses)) as Hs.
    { unfold MetricCOMETQE.scores. by rewrite Hout. }
    unfold MetricCOMETQE.reshape in Hs. split.
    + intros Hlen. rewrite Hs. by case_decide.
    + intros Hlen. assert (MetricCOMETQE.scores self hypotheses source
                           = Raise ValueError) as Hv.
      { rewrite Hs. by case_decide. }
      split; [done|]. intros h ->. unfold MetricCOMETQE.score.
      by rewrite Hv.
  - assert (MetricCOMETQE.scores self hypotheses source = Raise e) as Hs.
    { unfold MetricCOMETQE.scores. by rewrite Hout. }
    split; [done|]. intros h ->. unfold MetricCOMETQE.score. by rewrite Hs.
Qed.

Lemma model_output_size_is_checked_witness :
  let model := MetricCOMETQE.mkScorer (fun data _ _ => Ok [1%Q; 0%Q]) in
  let self := MetricCOMETQE.mkMetric MetricCOMETQE.Config_default model in
  MetricCOMETQE.scores self ["x"] "x" = Raise ValueError
  ∧ MetricCOMETQE.score self "x" "x" = Raise ValueError.
Proof.
  intros model self.
  destruct (model_output_size_is_checked self ["x"] "x" (Ok [1%Q; 0%Q]))
    as [_ Hbad]; [reflexivity|].
  destruct Hbad as [Hs Hsc]; [cbn; lia|].
  split; [exact Hs|]. by apply Hsc.
Defined.

(** X14. Through the command line, the COMET-QE metric is always built
    from the default model, with the default configuration; the model is
    moved to the GPU when there is one and is never turned to half
    precision, whatever [--fp16] and [--batch-size] are. *)
Theorem comet_qe_built_by_cli {F}
    (load_model : string → result (MetricCOMETQE.Scorer F))
    (to_cuda to_half : MetricCOMETQE.Scorer F → MetricCOMETQE.Scorer F)
    (cuda_is_available : bool) (args : Args.Namespace)
    (sc : MetricCOMETQE.Scorer F) :
  Args.metric args = MetricCOMETQE.registered_name →
  load_model "Unbabel/wmt22-cometkiwi-da" = Ok sc →
  let T := MetricCOMETQE_type load_model to_cuda to_half cuda_is_available in
  (metric_Config T (Decode.metric_cfg_args args) ≫= metric_new T)
  = Ok (MetricCOMETQE.mkMetric MetricCOMETQE.Config_default
          (if cuda_is_available then to_cuda sc else sc)).
Proof.
  intros Hm Hload T. unfold Decode.metric_cfg_args. rewrite Hm. cbn.
  unfold MetricCOMETQE.init. cbn. rewrite Hload. cbn.
  by destruct cuda_is_available.
Qed.

Lemma comet_qe_built_by_cli_witness :
  let sc : MetricCOMETQE.Scorer Q :=
    MetricCOMETQE.mkScorer (fun data _ _ => Ok ((fun _ => 1%Q) <$> data)) in
  let gpu : MetricCOMETQE.Scorer Q :=
    MetricCOMETQE.mkScorer (fun data _ _ => Ok ((fun _ => 0%Q) <$> data)) in
  let args :=
    {| Args.hypotheses := "hyps.txt";
       Args.source := Some "src.txt";
       Args.references := None;
       Args.num_candidates := 3;
       Args.num_references := None;
       Args.decoder := "mbr";
       Args.metric := "comet_qe";
       Args.nbest := 1;
       Args.quiet := false;
       Args.report := "rounded_outline";
       Args.width := 1;
       Args.batch_size := 8;
       Args.fp16 := true |} in
  let T := MetricCOMETQE_type (fun _ => Ok sc) (fun _ => gpu)
             (fun _ => sc) true in
  (metric_Config T (Decode.metric_cfg_args args) ≫= metric_new T)
  = Ok (MetricCOMETQE.mkMetric MetricCOMETQE.Config_default gpu).
Proof.
  intros sc gpu args T.
  apply (comet_qe_built_by_cli (fun _ => Ok sc) (fun _ => gpu) (fun _ => sc)
           true args sc); reflexivity.
Defined.

(** X15. Without a GPU, or when both configurations ask for the CPU, the
    model that the metric holds depends on the model name only: [float16]
    and [batch_size] do not change it. *)
Theorem float16_ignored_without_cuda {F}
    (load_model : string → result (MetricCOMETQE.Scorer F))
    (to_cuda to_half : MetricCOMETQE.Scorer F → MetricCOMETQE.Scorer F)
    (cuda_is_available : bool) (c c' : MetricCOMETQE.Config) :
  MetricCOMETQE.model c = MetricCOMETQE.model c' →
  cuda_is_available = false
  ∨ (MetricCOMETQE.cpu c = true ∧ MetricCOMETQE.cpu c' = true) →
  MetricCOMETQE.scorer
    <$> MetricCOMETQE.init load_model to_cuda to_half cuda_is_available c
  = MetricCOMETQE.scorer
    <$> MetricCOMETQE.init load_model to_cuda to_half cuda_is_available c'.
Proof.
  intros Hmodel Hcpu. unfold MetricCOMETQE.init. rewrite Hmodel.
  destruct (load_model (MetricCOMETQE.model c')) as [sc|e]; [|done]. cbn.
  destruct Hcpu as [->|[-> ->]]; cbn; [|done].
  by rewrite !andb_false_r.
Qed.

Lemma float16_ignored_without_cuda_witness :
  let sc : MetricCOMETQE.Scorer Q :=
    MetricCOMETQE.mkScorer (fun data _ _ => Ok ((fun _ => 1%Q) <$> data)) in
  let gpu : MetricCOMETQE.Scorer Q :=
    MetricCOMETQE.mkScorer (fun data _ _ => Ok ((fun _ => 0%Q) <$> data)) in
  MetricCOMETQE.scorer
    <$> MetricCOMETQE.init (fun _ => Ok sc) (fun _ => gpu) (fun _ => gpu)
          false MetricCOMETQE.Config_default
  = MetricCOMETQE.scorer
    <$> MetricCOMETQE.init (fun _ => Ok sc) (fun _ => gpu) (fun _ => gpu)
          false (MetricCOMETQE.Config_kw 8 true).
Proof.
  intros sc gpu.
  apply float16_ignored_without_cuda; [reflexivity|by left].
Defined.
